(** * Patient synchronisation layer: store path and cache path

    A shallow embedding of [src/store/patientSlice.ts] (the Redux slice and
    its two thunks) and of [src/api/patient-hooks.ts] (the query-cache
    mutations), with the properties of the specification stated over it.

    The TypeScript annotations are erased when the program runs, so the
    payloads that arrive from the remote service ([any] in the source) are
    modelled by an untyped [value]; the form data, which the screens build
    from text inputs and selectors, keeps its declared string fields. *)

From Stdlib Require Import ZArith String Ascii List Bool Lia.
From stdpp Require Import base option strings list gmap pretty.

Local Open Scope string_scope.
Local Open Scope Z_scope.
Set Warnings "-register-all".

(** ** Values of the language *)

(** Built-in objects that a property read on an object literal can reach
    through the prototype chain. *)
Inductive native : Type :=
| NObjectPrototype
| NFunction (name : string).

(** A run-time value.  An object is the list of its own properties in
    insertion order, a key being bound at most once (the first binding
    counts).  Numbers are carried by their integer value: the program only
    tests the numbers of a payload for truthiness and hands them to the
    run-time services of [Runtime] below. *)
Inductive value : Type :=
| VUndefined
| VNull
| VBool (b : bool)
| VNum (z : Z)
| VStr (s : string)
| VArr (items : list value)
| VObj (props : list (string * value))
| VNative (n : native).

(** The result of evaluating code that can raise: [try]/[catch] is a
    [match] on it. *)
Inductive completion (A : Type) : Type :=
| Normal (a : A)
| Throw (e : value).
Arguments Normal {A} a.
Arguments Throw {A} e.

#[global] Instance completion_ret : MRet completion := fun _ a => Normal a.
#[global] Instance completion_bind : MBind completion := fun _ _ f c =>
  match c with
  | Normal a => f a
  | Throw e => Throw e
  end.

(** [!v] is [negb (truthy v)]. *)
Definition truthy (v : value) : bool :=
  match v with
  | VUndefined | VNull => false
  | VBool b => b
  | VNum z => negb (z =? 0)
  | VStr s => negb (String.eqb s "")
  | VArr _ | VObj _ | VNative _ => true
  end.

Definition nullish (v : value) : bool :=
  match v with
  | VUndefined | VNull => true
  | _ => false
  end.

(** [a || b]; both operands of every use in the program are free of
    effects, so the laziness of the operator is not observable. *)
Definition or_ (a b : value) : value := if truthy a then a else b.
Infix "|||" := or_ (at level 50, left associativity).

(** [typeof v === "object"] *)
Definition typeof_object (v : value) : bool :=
  match v with
  | VNull | VArr _ | VObj _ | VNative NObjectPrototype => true
  | _ => false
  end.

Definition native_eqb (a b : native) : bool :=
  match a, b with
  | NObjectPrototype, NObjectPrototype => true
  | NFunction f, NFunction g => String.eqb f g
  | _, _ => false
  end.

(** [a === b].  Primitives compare by value.  Two objects are identical only
    when they are the same reference; references are not part of this
    model, where every object of a payload is a separate one, so objects
    and arrays compare unequal. *)
Definition strictEquals (a b : value) : bool :=
  match a, b with
  | VUndefined, VUndefined => true
  | VNull, VNull => true
  | VBool x, VBool y => Bool.eqb x y
  | VNum x, VNum y => x =? y
  | VStr x, VStr y => String.eqb x y
  | VNative x, VNative y => native_eqb x y
  | _, _ => false
  end.

(** Own property of an object. *)
Fixpoint own (k : string) (props : list (string * value)) : option value :=
  match props with
  | [] => None
  | (k', v) :: rest => if String.eqb k k' then Some v else own k rest
  end.

(** The properties every object literal and every parsed object inherits
    from [Object.prototype]. *)
Definition objectPrototype : list (string * value) :=
  [ ("constructor", VNative (NFunction "Object"));
    ("__proto__", VNative NObjectPrototype);
    ("hasOwnProperty", VNative (NFunction "hasOwnProperty"));
    ("isPrototypeOf", VNative (NFunction "isPrototypeOf"));
    ("propertyIsEnumerable", VNative (NFunction "propertyIsEnumerable"));
    ("toLocaleString", VNative (NFunction "toLocaleString"));
    ("toString", VNative (NFunction "toString"));
    ("valueOf", VNative (NFunction "valueOf"));
    ("__defineGetter__", VNative (NFunction "__defineGetter__"));
    ("__defineSetter__", VNative (NFunction "__defineSetter__"));
    ("__lookupGetter__", VNative (NFunction "__lookupGetter__"));
    ("__lookupSetter__", VNative (NFunction "__lookupSetter__")) ].

(** [v.k] and [v[k]] on a value that is neither [null] nor [undefined]: an
    own property first, then the prototype.  On primitives and arrays the
    program only reads the field names of the remote payload, none of which
    is a built-in property there, so the read yields [undefined]. *)
Definition get (v : value) (k : string) : value :=
  match v with
  | VObj props =>
      match own k props with
      | Some x => x
      | None => default VUndefined (own k objectPrototype)
      end
  | _ => VUndefined
  end.

(** [Object.entries(v)] *)
Definition entries (v : value) : list (string * value) :=
  match v with
  | VObj props => props
  | _ => []
  end.

(** [new Error(message)] *)
Definition newError (message : string) : value :=
  VObj [("message", VStr message)].

(** The message text of an engine's [TypeError] and [RangeError] differs
    between engines; it is a non-empty string in all of them, and nothing
    else about it is used. *)
Definition typeError (message : string) : value := newError message.

(** [v.k] where [v] may be [null] or [undefined], which raises. *)
Definition getE (v : value) (k : string) : completion value :=
  if nullish v then Throw (typeError ("Cannot read property '" +:+ k +:+ "' of " +:+
                                      (if strictEquals v VNull then "null" else "undefined")))
  else Normal (get v k).

(** [v?.k] *)
Definition getOpt (v : value) (k : string) : value :=
  if nullish v then VUndefined else get v k.

(** ** Strings (ASCII fragment of the string methods) *)

Definition isUpper (c : ascii) : bool :=
  let n := nat_of_ascii c in (65 <=? n)%nat && (n <=? 90)%nat.
Definition isLower (c : ascii) : bool :=
  let n := nat_of_ascii c in (97 <=? n)%nat && (n <=? 122)%nat.
Definition isDigit (c : ascii) : bool :=
  let n := nat_of_ascii c in (48 <=? n)%nat && (n <=? 57)%nat.
Definition isSpace (c : ascii) : bool :=
  let n := nat_of_ascii c in ((9 <=? n)%nat && (n <=? 13)%nat) || (n =? 32)%nat.

Definition lowerChar (c : ascii) : ascii :=
  if isUpper c then ascii_of_nat (nat_of_ascii c + 32) else c.
Definition upperChar (c : ascii) : ascii :=
  if isLower c then ascii_of_nat (nat_of_ascii c - 32) else c.

Fixpoint mapString (f : ascii -> ascii) (s : string) : string :=
  match s with
  | EmptyString => EmptyString
  | String c rest => String (f c) (mapString f rest)
  end.

(** [s.toLowerCase()] and [s.toUpperCase()] as they act on ASCII text: the
    letters A to Z and a to z are mapped and every other byte is kept.  On
    text with other characters the engine's methods also map those, and
    can change the length. *)
Definition toLowerCase : string -> string := mapString lowerChar.
Definition toUpperCase : string -> string := mapString upperChar.

Fixpoint trimStart (s : string) : string :=
  match s with
  | String c rest => if isSpace c then trimStart rest else s
  | EmptyString => EmptyString
  end.
(** [s.trim()] as it acts on ASCII text; the engine's method also strips
    the white space characters outside ASCII. *)
Definition trim (s : string) : string :=
  String.rev (trimStart (String.rev (trimStart s))).

(** [s.charAt(0)] and [s.slice(1)] *)
Definition charAt0 (s : string) : string :=
  match s with
  | String c _ => String c EmptyString
  | EmptyString => EmptyString
  end.
Definition slice1 (s : string) : string :=
  match s with
  | String _ rest => rest
  | EmptyString => EmptyString
  end.

(** [s.split("T")[0]] *)
Fixpoint beforeT (s : string) : string :=
  match s with
  | EmptyString => EmptyString
  | String c rest => if Ascii.eqb c "T" then EmptyString else String c (beforeT rest)
  end.

(** [s.replace(/-/g, "/")] *)
Definition dashesToSlashes : string -> string :=
  mapString (fun c => if Ascii.eqb c "-" then "/"%char else c).

(** [s.replace(/\D/g, "")] *)
Fixpoint digitsOnly (s : string) : string :=
  match s with
  | EmptyString => EmptyString
  | String c rest => if isDigit c then String c (digitsOnly rest) else digitsOnly rest
  end.

Definition startsWith (p s : string) : bool := String.prefix p s.

(** [s.substring(n)] *)
Fixpoint substringFrom (n : nat) (s : string) : string :=
  match n, s with
  | O, _ => s
  | S n', String _ rest => substringFrom n' rest
  | S _, EmptyString => EmptyString
  end.

(** ** Services of the run-time system *)

(** JavaScript numbers as [calculateAge] meets them: integers, and the
    [NaN] the getters of an invalid date return. *)
Inductive number : Type :=
| Num (z : Z)
| NaN.

Definition num_sub (a b : number) : number :=
  match a, b with
  | Num x, Num y => Num (x - y)
  | _, _ => NaN
  end.
Definition num_lt (a b : number) : bool :=
  match a, b with
  | Num x, Num y => x <? y
  | _, _ => false
  end.
Definition num_eq (a b : number) : bool :=
  match a, b with
  | Num x, Num y => x =? y
  | _, _ => false
  end.

(** [String(n)] *)
Definition String_ (n : number) : string :=
  match n with
  | Num z => pretty z
  | NaN => "NaN"
  end.

(** The fields of a valid [Date]: its local calendar components and its
    [toISOString()] text. *)
Record DateFields : Type := mkDate {
  fullYear : Z;
  month : Z;
  dayOfMonth : Z;
  isoString : string;
}.

(** A [Date] object; [None] is the Invalid Date. *)
Definition Date : Type := option DateFields.

Definition getFullYear (d : Date) : number := from_option (fun f => Num (fullYear f)) NaN d.
Definition getMonth (d : Date) : number := from_option (fun f => Num (month f)) NaN d.
Definition getDate (d : Date) : number := from_option (fun f => Num (dayOfMonth f)) NaN d.

(** [d.toISOString()] raises a [RangeError] on the Invalid Date. *)
Definition toISOString (d : Date) : completion string :=
  match d with
  | Some f => Normal (isoString f)
  | None => Throw (typeError "Invalid time value")
  end.

Inductive Endpoint : Type :=
| getPatients
| addPatient.

(** What the program takes from its environment: the [Date] constructor
    (which parses with engine-defined rules and can raise while converting
    an object argument to a primitive), the clock, the conversion of a
    non-string value to a string, and the HTTP client.  [post] yields the
    body [response.data] of a resolved request, or the error a rejected
    request raises at its [await]. *)
Record Runtime : Type := mkRuntime {
  newDate : value -> completion Date;
  now : DateFields;
  toStringOther : value -> completion string;
  post : Endpoint -> value -> completion value;
}.

(** [`${v}`] *)
Definition toString_ (rt : Runtime) (v : value) : completion string :=
  match v with
  | VStr s => Normal s
  | _ => toStringOther rt v
  end.

(** ** The store path: [src/store/patientSlice.ts] *)

Module Store.

Record Patient : Type := mkPatient {
  id : value;
  firstName : value;
  lastName : value;
  gender : value;
  age : value;
  year : value;
  dateOfBirth : value;
  email : value;
  phone : value;
  relationship : value;
  district : value;
  vdcMunicipality : value;
  wardNo : value;
  tole : value;
  createdAt : value;
  updatedAt : value;
}.

(** The fields carry the prefix [form_]: a module cannot declare the field
    names of [Patient] a second time. *)
Record PatientFormData : Type := mkForm {
  form_firstName : string;
  form_lastName : string;
  form_gender : string;
  form_age : string;
  form_year : string;
  form_dateOfBirth : string;
  form_email : string;
  form_phone : string;
  form_relationship : string;
  form_district : string;
  form_vdcMunicipality : string;
  form_wardNo : string;
  form_tole : string;
}.

Record PatientState : Type := mkState {
  patients : list Patient;
  loading : bool;
  error : value;
  successMessage : value;
}.

Definition initialState : PatientState :=
  {| patients := []; loading := false; error := VNull; successMessage := VNull |}.

(** *** Utility functions *)

Definition relationMap : value :=
  VObj [ ("spouse", VStr "1"); ("father", VStr "2"); ("mother", VStr "2");
         ("parent", VStr "3"); ("child", VStr "4"); ("son", VStr "4");
         ("daughter", VStr "4"); ("sibling", VStr "5"); ("brother", VStr "5");
         ("sister", VStr "5"); ("grandparent", VStr "6"); ("grandchild", VStr "7");
         ("relative", VStr "8"); ("other", VStr "9") ].

Definition getRelationshipId (relationship : string) : value :=
  get relationMap (toLowerCase relationship) ||| VStr "9".

Definition districtMap : value :=
  VObj [ ("kathmandu", VStr "46"); ("lalitpur", VStr "47"); ("bhaktapur", VStr "47");
         ("chitwan", VStr "28"); ("pokhara", VStr "37"); ("biratnagar", VStr "56");
         ("birgunj", VStr "52"); ("dharan", VStr "61"); ("butwal", VStr "35");
         ("hetauda", VStr "50") ].

Definition getDistrictId (district : string) : value :=
  get districtMap (toLowerCase district) ||| VStr "46".

Definition vdcMap : value :=
  VObj [ ("municipality_a", VStr "1147"); ("municipality_b", VStr "1148");
         ("municipality_c", VStr "1149"); ("vdc_a", VStr "1150"); ("vdc_b", VStr "1151") ].

Definition getVdcId (vdcMunicipality : string) : value :=
  get vdcMap (toLowerCase vdcMunicipality) ||| VStr "1147".

Definition calculateAge (rt : Runtime) (dob : value) : string :=
  if negb (truthy dob) then "Unknown"
  else
    let try : completion string :=
      birthDate ← newDate rt dob;
      let today : Date := Some (now rt) in
      let age := num_sub (getFullYear today) (getFullYear birthDate) in
      let monthDiff := num_sub (getMonth today) (getMonth birthDate) in
      if num_lt monthDiff (Num 0)
         || (num_eq monthDiff (Num 0) && num_lt (getDate today) (getDate birthDate))
      then mret (String_ (num_sub age (Num 1)))
      else mret (String_ age) in
    match try with
    | Normal s => s
    | Throw _ => "Unknown"
    end.

Definition formatDate (rt : Runtime) (dateStr : value) : string :=
  if negb (truthy dateStr)
  then dashesToSlashes (beforeT (isoString (now rt)))
  else
    let try : completion string :=
      d ← newDate rt dateStr;
      iso ← toISOString d;
      mret (dashesToSlashes (beforeT iso)) in
    match try with
    | Normal s => s
    | Throw _ => dashesToSlashes (beforeT (isoString (now rt)))
    end.

(** [apiPatient.gender?.toLowerCase().trim()]: the chain stops at a
    [null] or [undefined] gender; a string is lowered and trimmed; any other
    value has no callable [toLowerCase], and the call raises. *)
Definition gender_lower_trim (apiPatient : value) : completion value :=
  match get apiPatient "gender" with
  | VUndefined | VNull => Normal VUndefined
  | VStr s => Normal (VStr (trim (toLowerCase s)))
  | _ => Throw (typeError "apiPatient.gender?.toLowerCase is not a function")
  end.

(** The object literal reads [apiPatient.midasid] first, and that read
    raises when [apiPatient] is [null] or [undefined]. *)
Definition transformPatientData (rt : Runtime) (apiPatient : value) : completion Patient :=
  midasid ← getE apiPatient "midasid";
  let id_ := midasid ||| get apiPatient "userid" ||| VStr "unknown" in
  let firstName_ := get apiPatient "fname" ||| VStr "" in
  let lastName_ := get apiPatient "lname" ||| VStr "" in
  g ← gender_lower_trim apiPatient;
  let gender_ := g ||| VStr "" in
  let age_ := VStr (calculateAge rt (get apiPatient "dobbs" ||| get apiPatient "dobad")) in
  let dateOfBirth_ := get apiPatient "dobbs" ||| get apiPatient "dobad" ||| VStr "" in
  let email_ := get apiPatient "emailaddress" ||| VStr "" in
  let phone_ := get apiPatient "mobilenumber" ||| get apiPatient "phone" ||| VStr "" in
  let relationship_ :=
    if strictEquals (get apiPatient "user_type") (VStr "self")
    then VStr "self" else VStr "relative" in
  districtname ← toString_ rt (get apiPatient "districtname" ||| VStr "undefined");
  vdcname ← toString_ rt (get apiPatient "vdcname" ||| VStr "A");
  mret {| id := id_;
          firstName := firstName_;
          lastName := lastName_;
          gender := gender_;
          age := age_;
          year := VStr "Years";
          dateOfBirth := dateOfBirth_;
          email := email_;
          phone := phone_;
          relationship := relationship_;
          district := VStr ("District " +:+ districtname);
          vdcMunicipality := VStr ("Municipality " +:+ vdcname);
          wardNo := get apiPatient "wardno" ||| VStr "1";
          tole := get apiPatient "address" ||| VStr "Unknown";
          createdAt := VStr (formatDate rt (get apiPatient "createddate"));
          updatedAt := VStr (formatDate rt (get apiPatient "datapostdatetime")) |}.

(** *** Async thunks *)

(** What a payload creator hands back to [createAsyncThunk]: a returned
    payload, or [rejectWithValue(v)]. *)
Inductive thunkResult (A : Type) : Type :=
| Fulfill (payload : A)
| RejectWithValue (v : value).
Arguments Fulfill {A} payload.
Arguments RejectWithValue {A} v.

(** [list.forEach(relative => { if (relative && typeof relative === "object")
    patients.push(transformPatientData(relative)) })] *)
Fixpoint forEach_push (rt : Runtime) (items : list value) (patients : list Patient)
  : completion (list Patient) :=
  match items with
  | [] => mret patients
  | relative :: rest =>
      patients ← (if truthy relative && typeof_object relative
                   then p ← transformPatientData rt relative; mret (patients ++ [p])%list
                   else mret patients);
      forEach_push rt rest patients
  end.

Definition fetchPatients (rt : Runtime) : thunkResult (list Patient) :=
  let try : completion (thunkResult (list Patient)) :=
    data ← post rt getPatients (VObj []);
    type ← getE data "type";
    if negb (strictEquals type (VStr "success"))
    then mret (RejectWithValue (VStr "Failed to fetch patients from server"))
    else
      response ← getE data "response";
      list_ ← getE response "list";
      my ← getE response "my";
      let list_ := match list_ with VUndefined => VArr [] | _ => list_ end in
      let patients : list Patient := [] in
      patients ← (if truthy my
                   then p ← transformPatientData rt my; mret (patients ++ [p])%list
                   else mret patients);
      patients ← (match list_ with
                   | VArr items =>
                       if (0 <? Z.of_nat (length items))
                       then forEach_push rt items patients
                       else mret patients
                   | _ => mret patients
                   end);
      mret (Fulfill patients) in
  match try with
  | Normal r => r
  | Throw error =>
      let errorMessage :=
        getOpt (getOpt (getOpt error "response") "data") "message"
        ||| getOpt error "message"
        ||| VStr "Network error occurred while fetching patients" in
      RejectWithValue errorMessage
  end.

(** The request body [apiData] of [createPatient]. *)
Definition apiData (patientData : PatientFormData) : value :=
  VObj [ ("fname", VStr (form_firstName patientData));
         ("lname", VStr (form_lastName patientData));
         ("gender", VStr (if String.eqb (form_gender patientData) "male"
                          then "Male" else "Female"));
         ("age", VStr (form_age patientData));
         ("agetype", VStr (form_year patientData));
         ("email", VStr (form_email patientData));
         ("mobileno", VStr (form_phone patientData));
         ("countrycode", VStr "977");
         ("relationid", getRelationshipId (form_relationship patientData));
         ("districtid", getDistrictId (form_district patientData));
         ("vdcid", getVdcId (form_vdcMunicipality patientData));
         ("wardno", VStr (form_wardNo patientData));
         ("address", VStr (form_tole patientData));
         ("addtorelative", VStr "Y") ].

Definition createPatient (rt : Runtime) (patientData : PatientFormData) : thunkResult value :=
  let try : completion (thunkResult value) :=
    data ← post rt addPatient (apiData patientData);
    type ← getE data "type";
    if negb (strictEquals type (VStr "success"))
    then mret (RejectWithValue (get data "message" ||| VStr "Failed to create patient"))
    else mret (Fulfill data) in
  match try with
  | Normal r => r
  | Throw error =>
      let errorMessage :=
        getOpt (getOpt (getOpt error "response") "data") "message"
        ||| getOpt error "message"
        ||| VStr "Network error occurred while creating patient" in
      RejectWithValue errorMessage
  end.

(** *** The slice *)

Inductive action : Type :=
| clearError
| clearSuccessMessage
| resetPatientState
| updatePatient (payload : Patient)
| fetchPatients_pending
| fetchPatients_fulfilled (payload : list Patient)
| fetchPatients_rejected (payload : value)
| createPatient_pending
| createPatient_fulfilled (payload : value)
| createPatient_rejected (payload : value).

(** [l.findIndex(f)], [-1] when no element satisfies [f]. *)
Fixpoint findIndex_from {A : Type} (f : A -> bool) (i : Z) (l : list A) : Z :=
  match l with
  | [] => -1
  | x :: rest => if f x then i else findIndex_from f (i + 1) rest
  end.
Definition findIndex {A : Type} (f : A -> bool) (l : list A) : Z := findIndex_from f 0 l.

(** The case reducers.  The payload of [createPatient_fulfilled] is the
    body of a "success" answer, which is neither [null] nor [undefined]. *)
Definition reducer (state : PatientState) (a : action) : PatientState :=
  match a with
  | clearError =>
      {| patients := patients state; loading := loading state;
         error := VNull; successMessage := successMessage state |}
  | clearSuccessMessage =>
      {| patients := patients state; loading := loading state;
         error := error state; successMessage := VNull |}
  | resetPatientState =>
      {| patients := []; loading := false; error := VNull; successMessage := VNull |}
  | updatePatient payload =>
      let index := findIndex (fun p => strictEquals (id p) (id payload)) (patients state) in
      if negb (index =? -1)
      then {| patients := <[Z.to_nat index := payload]> (patients state);
              loading := loading state; error := error state;
              successMessage := successMessage state |}
      else state
  | fetchPatients_pending =>
      {| patients := patients state; loading := true;
         error := VNull; successMessage := successMessage state |}
  | fetchPatients_fulfilled payload =>
      {| patients := payload; loading := false;
         error := VNull; successMessage := successMessage state |}
  | fetchPatients_rejected payload =>
      {| patients := patients state; loading := false;
         error := payload; successMessage := successMessage state |}
  | createPatient_pending =>
      {| patients := patients state; loading := true;
         error := VNull; successMessage := VNull |}
  | createPatient_fulfilled payload =>
      {| patients := patients state; loading := false;
         error := VNull; successMessage := get payload "message" |}
  | createPatient_rejected payload =>
      {| patients := patients state; loading := false;
         error := payload; successMessage := successMessage state |}
  end.

(** The action with which a thunk's promise settles. *)
Definition fetch_settled (r : thunkResult (list Patient)) : action :=
  match r with
  | Fulfill payload => fetchPatients_fulfilled payload
  | RejectWithValue v => fetchPatients_rejected v
  end.
Definition create_settled (r : thunkResult value) : action :=
  match r with
  | Fulfill payload => createPatient_fulfilled payload
  | RejectWithValue v => createPatient_rejected v
  end.

(** [dispatch(fetchPatients())] and [dispatch(createPatient(patientData))]
    run to completion with no other action in between: the [pending]
    action, then the settled one. *)
Definition dispatch_fetchPatients (rt : Runtime) (state : PatientState) : PatientState :=
  reducer (reducer state fetchPatients_pending) (fetch_settled (fetchPatients rt)).
Definition dispatch_createPatient (rt : Runtime) (patientData : PatientFormData)
    (state : PatientState) : PatientState :=
  reducer (reducer state createPatient_pending) (create_settled (createPatient rt patientData)).

(** *** Selectors *)

(** The root state of the application store: [{ patients: PatientState }]. *)
Record RootState : Type := mkRoot {
  root_patients : PatientState;
}.

Definition selectAllPatients (state : RootState) : list Patient :=
  patients (root_patients state).
Definition selectPatientsLoading (state : RootState) : bool :=
  loading (root_patients state).
Definition selectPatientsError (state : RootState) : value :=
  error (root_patients state).
Definition selectPatientsSuccessMessage (state : RootState) : value :=
  successMessage (root_patients state).

(** [patients.find(patient => patient.id === patientId)]; [None] is the
    [undefined] of a search that finds nothing. *)
Definition selectPatientById (state : RootState) (patientId : value) : option Patient :=
  List.find (fun patient => strictEquals (id patient) patientId)
            (patients (root_patients state)).

End Store.

(** ** The cache path: [src/api/patient-hooks.ts] *)

Module Hooks.

Record CreatePatientData : Type := mkData {
  firstName : string;
  lastName : string;
  gender : string;
  age : string;
  year : string;
  dateOfBirth : string;
  email : string;
  phone : string;
  relationship : string;
  district : string;
  vdcMunicipality : string;
  wardNo : string;
  tole : string;
}.

(** *** Form values to API identifiers *)

Definition relationMap : value :=
  VObj [ ("spouse", VStr "1"); ("child", VStr "2"); ("parent", VStr "3");
         ("sibling", VStr "4"); ("grandparent", VStr "5"); ("grandchild", VStr "6");
         ("relative", VStr "9"); ("other", VStr "9") ].

Definition getRelationId (relationship : string) : value :=
  get relationMap (toLowerCase relationship) ||| VStr "9".

Definition districtMap : value :=
  VObj [ ("kathmandu", VStr "45"); ("lalitpur", VStr "46"); ("bhaktapur", VStr "47") ].

Definition getDistrictId (district : string) : value :=
  get districtMap (toLowerCase district) ||| VStr "45".

Definition vdcMap : value :=
  VObj [ ("municipality_a", VStr "1147"); ("municipality_b", VStr "1148") ].

Definition getVdcId (vdcMunicipality : string) : value :=
  get vdcMap (toLowerCase vdcMunicipality) ||| VStr "1147".

Definition cleanPhoneNumber (phone : string) : string :=
  if String.eqb phone "" then ""
  else
    let cleanNumber := digitsOnly phone in
    let cleanNumber :=
      if startsWith "977" cleanNumber then substringFrom 3 cleanNumber else cleanNumber in
    let cleanNumber :=
      if startsWith "0" cleanNumber then substringFrom 1 cleanNumber else cleanNumber in
    cleanNumber.

(** The request [apiData] of [useCreatePatient]. *)
Definition apiData (data : CreatePatientData) : value :=
  VObj [ ("fname", VStr (firstName data));
         ("lname", VStr (lastName data));
         ("age", VStr (age data));
         ("agetype", VStr (year data) ||| VStr "Years");
         ("countrycode", VStr "977");
         ("mobileno", VStr (cleanPhoneNumber (phone data)));
         ("email", VStr (email data));
         ("gender", VStr (toUpperCase (charAt0 (gender data)) +:+ slice1 (gender data)));
         ("relationid", getRelationId (relationship data));
         ("address", VStr (tole data));
         ("districtid", getDistrictId (district data));
         ("vdcid", getVdcId (vdcMunicipality data));
         ("wardno", VStr (wardNo data));
         ("addtorelative", VStr "Y") ].

(** [Object.entries(apiData).forEach(([key, value]) => { if (value !==
    undefined && value !== null) formData.append(key, value.toString()) })] *)
Fixpoint appendEntries (rt : Runtime) (entries : list (string * value))
    (formData : list (string * value)) : completion (list (string * value)) :=
  match entries with
  | [] => mret formData
  | (key, v) :: rest =>
      formData ← (if negb (strictEquals v VUndefined) && negb (strictEquals v VNull)
                   then s ← toString_ rt v; mret (formData ++ [(key, VStr s)])%list
                   else mret formData);
      appendEntries rt rest formData
  end.

(** *** The query cache *)

(** One element of a query key: a string, or the [{ filters }] object of a
    filtered list key. *)
Inductive segment : Type :=
| SText (s : string)
| SFilters (filters : string).

#[global] Instance segment_eq_dec : EqDecision segment.
Proof. solve_decision. Defined.
#[global] Instance segment_countable : Countable segment.
Proof.
  refine (inj_countable' (fun s => match s with SText t => inl t | SFilters f => inr f end)
                         (fun x => match x with inl t => SText t | inr f => SFilters f end) _).
  intros []; reflexivity.
Defined.

Abbreviation queryKey := (list segment).

Module patientKeys.
Definition all : queryKey := [SText "patients"].
Definition lists : queryKey := all ++ [SText "list"].
Definition list (filters : string) : queryKey := lists ++ [SFilters filters].
Definition details : queryKey := all ++ [SText "detail"].
Definition detail (id : string) : queryKey := details ++ [SText id].
End patientKeys.

(** A cached patient.  The detail entries are written by [usePatient], whose
    [id] is the result of a [toString()] call, and by the update mutation,
    which keeps that [id]; the other fields are whatever the remote service
    sent. *)
Record Patient : Type := mkPatient {
  p_id : string;
  p_firstName : value;
  p_lastName : value;
  p_gender : value;
  p_age : value;
  p_year : value;
  p_dateOfBirth : value;
  p_email : value;
  p_phone : value;
  p_relationship : value;
  p_district : value;
  p_vdcMunicipality : value;
  p_wardNo : value;
  p_tole : value;
  p_createdAt : value;
  p_updatedAt : value;
}.

(** [Partial<CreatePatientData>]: the fields an edit supplies. *)
Record PartialData : Type := mkPartial {
  d_firstName : option string;
  d_lastName : option string;
  d_gender : option string;
  d_age : option string;
  d_year : option string;
  d_dateOfBirth : option string;
  d_email : option string;
  d_phone : option string;
  d_relationship : option string;
  d_district : option string;
  d_vdcMunicipality : option string;
  d_wardNo : option string;
  d_tole : option string;
}.

Inductive queryData : Type :=
| DPatient (p : Patient)
| DPatients (l : Datatypes.list Patient).

Record query : Type := mkQuery {
  data : option queryData;
  isInvalidated : bool;
}.

Abbreviation queryCache := (gmap queryKey query).

(** Modelled from the spec: the query client of the cache library, which is
    not part of the repository.  A partial key matches every cached key it
    is a prefix of; [invalidate] marks the matching entries stale, [write]
    stores a value under a key as fresh data, and removal drops the matching
    entries. *)
Definition matches (partial key : queryKey) : bool := bool_decide (partial `prefix_of` key).

Definition invalidateQueries (partial : queryKey) (cache : queryCache) : queryCache :=
  map_imap (fun key q =>
              Some (if matches partial key
                    then {| data := data q; isInvalidated := true |}
                    else q)) cache.

Definition setQueryData (key : queryKey) (d : queryData) (cache : queryCache) : queryCache :=
  <[key := {| data := Some d; isInvalidated := false |}]> cache.

Definition removeQueries (partial : queryKey) (cache : queryCache) : queryCache :=
  filter (fun kq => matches partial kq.1 = false) cache.

(** [getQueryData<Patient>(key)]; the type argument is a cast, and a detail
    key holds a patient whenever it holds data. *)
Definition getQueryData_Patient (key : queryKey) (cache : queryCache) : option Patient :=
  q ← cache !! key;
  d ← data q;
  match d with
  | DPatient p => Some p
  | DPatients _ => None
  end.

(** *** Mutations *)

Definition create_mutationFn (rt : Runtime) (d : CreatePatientData) : completion value :=
  formData ← appendEntries rt (entries (apiData d)) [];
  post rt addPatient (VObj formData).

Definition create_onSuccess (response : value) (cache : queryCache) : queryCache :=
  invalidateQueries patientKeys.lists cache.

(** [{ ...existingPatient, ...data, updatedAt: new Date().toISOString() }] *)
Definition merge (rt : Runtime) (existingPatient : Patient) (d : PartialData) : Patient :=
  {| p_id := p_id existingPatient;
     p_firstName := from_option VStr (p_firstName existingPatient) (d_firstName d);
     p_lastName := from_option VStr (p_lastName existingPatient) (d_lastName d);
     p_gender := from_option VStr (p_gender existingPatient) (d_gender d);
     p_age := from_option VStr (p_age existingPatient) (d_age d);
     p_year := from_option VStr (p_year existingPatient) (d_year d);
     p_dateOfBirth := from_option VStr (p_dateOfBirth existingPatient) (d_dateOfBirth d);
     p_email := from_option VStr (p_email existingPatient) (d_email d);
     p_phone := from_option VStr (p_phone existingPatient) (d_phone d);
     p_relationship := from_option VStr (p_relationship existingPatient) (d_relationship d);
     p_district := from_option VStr (p_district existingPatient) (d_district d);
     p_vdcMunicipality :=
       from_option VStr (p_vdcMunicipality existingPatient) (d_vdcMunicipality d);
     p_wardNo := from_option VStr (p_wardNo existingPatient) (d_wardNo d);
     p_tole := from_option VStr (p_tole existingPatient) (d_tole d);
     p_createdAt := p_createdAt existingPatient;
     p_updatedAt := VStr (isoString (now rt)) |}.

Definition update_mutationFn (rt : Runtime) (id : string) (d : PartialData)
    (cache : queryCache) : completion Patient :=
  match getQueryData_Patient (patientKeys.detail id) cache with
  | None => Throw (newError "Patient not found")
  | Some existingPatient => Normal (merge rt existingPatient d)
  end.

Definition update_onSuccess (updatedPatient : Patient) (cache : queryCache) : queryCache :=
  let cache :=
    setQueryData (patientKeys.detail (p_id updatedPatient)) (DPatient updatedPatient) cache in
  invalidateQueries patientKeys.lists cache.

Definition delete_mutationFn (id : string) : completion unit := Normal tt.

Definition delete_onSuccess (deletedId : string) (cache : queryCache) : queryCache :=
  let cache := removeQueries (patientKeys.detail deletedId) cache in
  invalidateQueries patientKeys.lists cache.

(** [mutate(variables)]: the mutation function, then [onSuccess] with its
    result; [onError] only logs.  The cache is not written by anyone else
    while the mutation function is awaited. *)
Definition useCreatePatient (rt : Runtime) (d : CreatePatientData)
    (cache : queryCache) : queryCache :=
  match create_mutationFn rt d with
  | Normal response => create_onSuccess response cache
  | Throw _ => cache
  end.

Definition useUpdatePatient (rt : Runtime) (id : string) (d : PartialData)
    (cache : queryCache) : queryCache :=
  match update_mutationFn rt id d cache with
  | Normal updatedPatient => update_onSuccess updatedPatient cache
  | Throw _ => cache
  end.

Definition useDeletePatient (id : string) (cache : queryCache) : queryCache :=
  match delete_mutationFn id with
  | Normal _ => delete_onSuccess id cache
  | Throw _ => cache
  end.

(** *** API identifiers to display names *)

Definition relationNameMap : value :=
  VObj [ ("1", VStr "spouse"); ("2", VStr "child"); ("3", VStr "parent");
         ("4", VStr "sibling"); ("5", VStr "grandparent"); ("6", VStr "grandchild");
         ("9", VStr "relative") ].

(** [relationMap[relationId?.toString()] || 'relative']: a missing
    identifier gives the key [undefined], which is read as the property
    "undefined". *)
Definition getRelationshipName (rt : Runtime) (relationId : value) : completion value :=
  key ← (if nullish relationId then mret "undefined" else toString_ rt relationId);
  mret (get relationNameMap key ||| VStr "relative").

Definition districtNameMap : value :=
  VObj [ ("45", VStr "Kathmandu"); ("46", VStr "Lalitpur"); ("47", VStr "Bhaktapur") ].

(** [districtMap[districtId] || `District ${districtId}`]: the computed key
    and the template both convert [districtId] to a string. *)
Definition getDistrictName (rt : Runtime) (districtId : value) : completion value :=
  key ← toString_ rt districtId;
  mret (get districtNameMap key ||| VStr ("District " +:+ key)).

Definition vdcNameMap : value :=
  VObj [ ("1147", VStr "Municipality A"); ("1148", VStr "Municipality B") ].

Definition getVdcName (rt : Runtime) (vdcId : value) : completion value :=
  key ← toString_ rt vdcId;
  mret (get vdcNameMap key ||| VStr ("VDC " +:+ key)).

(** *** Fetching the list *)

Definition calculateAge (rt : Runtime) (dobad dobbs : value) : string :=
  if negb (truthy dobad) then "0"
  else
    let try : completion string :=
      birthDate ← newDate rt dobad;
      let today : Date := Some (now rt) in
      let age := num_sub (getFullYear today) (getFullYear birthDate) in
      let monthDiff := num_sub (getMonth today) (getMonth birthDate) in
      let age :=
        if num_lt monthDiff (Num 0)
           || (num_eq monthDiff (Num 0) && num_lt (getDate today) (getDate birthDate))
        then num_sub age (Num 1)
        else age in
      mret (String_ age) in
    match try with
    | Normal s => s
    | Throw _ => "0"
    end.

(** [relative.userid?.toString()] *)
Definition userid_toString (rt : Runtime) (relative : value) : completion value :=
  userid ← getE relative "userid";
  if nullish userid then mret VUndefined
  else s ← toString_ rt userid; mret (VStr s).

(** [relative.gender?.toLowerCase()] *)
Definition gender_lower (relative : value) : completion value :=
  match get relative "gender" with
  | VUndefined | VNull => Normal VUndefined
  | VStr s => Normal (VStr (toLowerCase s))
  | _ => Throw (typeError "relative.gender?.toLowerCase is not a function")
  end.

(** The callback of [list.map] in [usePatients]; [dateNow] is the reading
    [Date.now()] of the clock.  The [id] is a string, and is kept as one. *)
Definition transformRelative (rt : Runtime) (dateNow : Z) (relative : value)
  : completion Patient :=
  uid ← userid_toString rt relative;
  let id_ := match uid ||| VStr (pretty dateNow) with VStr s => s | _ => "" end in
  g ← gender_lower relative;
  let age_ := VStr (calculateAge rt (get relative "dobad") (get relative "dobbs")) ||| VStr "0" in
  relationship_ ← getRelationshipName rt (get relative "relationid");
  district_ ← getDistrictName rt (get relative "districtid");
  vdc_ ← getVdcName rt (get relative "vdcid");
  mret {| p_id := id_;
          p_firstName := get relative "fname" ||| VStr "";
          p_lastName := get relative "lname" ||| VStr "";
          p_gender := g ||| VStr "unknown";
          p_age := age_;
          p_year := VStr "Years";
          p_dateOfBirth := get relative "dobad" ||| VStr "1990-01-01";
          p_email := get relative "emailaddress" ||| VStr "";
          p_phone := get relative "mobilenumber" ||| VStr "";
          p_relationship := relationship_ ||| VStr "relative";
          p_district := district_ ||| VStr "Unknown";
          p_vdcMunicipality := vdc_ ||| VStr "Unknown";
          p_wardNo := get relative "wardno" ||| VStr "1";
          p_tole := get relative "address" ||| VStr "Unknown";
          p_createdAt := get relative "createddate" ||| VStr (isoString (now rt));
          p_updatedAt := get relative "createddate" ||| VStr (isoString (now rt)) |}.

(** The query function of [usePatients]. *)
Definition usePatients_queryFn (rt : Runtime) (dateNow : Z)
  : completion (Datatypes.list Patient) :=
  let params := VObj [("userid", VStr "1000596100"); ("orgid", VStr "614")] in
  data ← post rt getPatients params;
  if truthy data && truthy (get data "response")
     && truthy (get (get data "response") "list")
  then match get (get data "response") "list" with
       | VArr items => mapM (transformRelative rt dateNow) items
       | _ => mret []
       end
  else mret [].

End Hooks.

(** ** The input widgets: [src/components] *)

Module FormPhoneInput.

(** [number.replace(/[^\d\s\-]/g, "")], the text [handlePhoneNumberChange]
    keeps and hands to [onPhoneChange]. *)
Fixpoint handlePhoneNumberChange (number : string) : string :=
  match number with
  | EmptyString => EmptyString
  | String c rest =>
      if isDigit c || isSpace c || Ascii.eqb c "-"
      then String c (handlePhoneNumberChange rest)
      else handlePhoneNumberChange rest
  end.

End FormPhoneInput.

Module FormDatePicker.

(** [s.split("/")] *)
Fixpoint split (s : string) : list string :=
  match s with
  | EmptyString => [EmptyString]
  | String c rest =>
      if Ascii.eqb c "/" then EmptyString :: split rest
      else match split rest with
           | piece :: pieces => String c piece :: pieces
           | [] => [String c EmptyString]
           end
  end.

Definition decimalDigit (c : ascii) : option Z :=
  if isDigit c then Some (Z.of_nat (nat_of_ascii c) - 48) else None.

Definition hexDigit (c : ascii) : option Z :=
  let n := Z.of_nat (nat_of_ascii c) in
  if isDigit c then Some (n - 48)
  else if (97 <=? n) && (n <=? 102) then Some (n - 87)
  else if (65 <=? n) && (n <=? 70) then Some (n - 55)
  else None.

(** The value of the longest prefix of digits. *)
Fixpoint digitsValue (digit : ascii -> option Z) (radix acc : Z) (s : string) : Z :=
  match s with
  | EmptyString => acc
  | String c rest =>
      match digit c with
      | Some d => digitsValue digit radix (radix * acc + d) rest
      | None => acc
      end
  end.

(** [parseInt(s)] with no radix: leading white space and a sign are
    skipped, a prefix [0x] selects base 16, and the longest prefix of
    digits is read; with no digit the result is [NaN].  The integer is
    exact, as the engine's is below 2^53. *)
Definition parseInt (s : string) : number :=
  let s := trimStart s in
  let negative := startsWith "-" s in
  let s := if startsWith "-" s || startsWith "+" s then substringFrom 1 s else s in
  let hex := startsWith "0x" s || startsWith "0X" s in
  let s := if hex then substringFrom 2 s else s in
  let digit := if hex then hexDigit else decimalDigit in
  let radix := if hex then 16 else 10 in
  match s with
  | EmptyString => NaN
  | String c _ =>
      match digit c with
      | Some _ =>
          let n := digitsValue digit radix 0 s in
          Num (if negative then - n else n)
      | None => NaN
      end
  end.

(** [parseInt(value.split("/")[i])]; a missing piece is [undefined], whose
    text has no digit. *)
Definition parsePiece (value : string) (i : nat) : number :=
  from_option parseInt NaN (split value !! i).

(** The initial [selectedYear], [selectedMonth] and [selectedDay] of the
    picker for the [value] it is given, if any. *)
Definition initialSelection (rt : Runtime) (value : option string)
  : number * number * number :=
  match value with
  | Some v =>
      if negb (String.eqb v "")
      then (parsePiece v 0, parsePiece v 1, parsePiece v 2)
      else (Num (fullYear (now rt)), Num (month (now rt) + 1), Num (dayOfMonth (now rt)))
  | None => (Num (fullYear (now rt)), Num (month (now rt) + 1), Num (dayOfMonth (now rt)))
  end.

(** [s.padStart(2, "0")] *)
Definition padStart2 (s : string) : string :=
  match s with
  | EmptyString => "00"
  | String c EmptyString => String "0" s
  | _ => s
  end.

Definition formatDateValue (format : string) (year month day : number) : string :=
  let paddedMonth := padStart2 (String_ month) in
  let paddedDay := padStart2 (String_ day) in
  if String.eqb format "MM/DD/YYYY"
  then paddedMonth +:+ "/" +:+ paddedDay +:+ "/" +:+ String_ year
  else if String.eqb format "DD/MM/YYYY"
  then paddedDay +:+ "/" +:+ paddedMonth +:+ "/" +:+ String_ year
  else String_ year +:+ "/" +:+ paddedMonth +:+ "/" +:+ paddedDay.

End FormDatePicker.

(** ** A stand-in run-time system for concrete runs *)

Module Sample.

(** 15 June 2024; months count from 0. *)
Definition today : DateFields := mkDate 2024 5 15 "2024-06-15T08:30:00.000Z".

(** A [Date] constructor that recognises one ISO date and takes every
    other argument for unparseable. *)
Definition newDate (v : value) : completion Date :=
  match v with
  | VStr s =>
      if String.eqb s "1990-01-01"
      then Normal (Some (mkDate 1990 0 1 "1990-01-01T00:00:00.000Z"))
      else Normal None
  | _ => Normal None
  end.

(** String conversion, exact on the values the concrete runs below meet. *)
Definition toStringOther (v : value) : completion string :=
  match v with
  | VUndefined => Normal "undefined"
  | VNull => Normal "null"
  | VBool b => Normal (if b then "true" else "false")
  | VNum z => Normal (pretty z)
  | VStr s => Normal s
  | VArr _ => Normal ""
  | VObj _ => Normal "[object Object]"
  | VNative NObjectPrototype => Normal "[object Object]"
  | VNative (NFunction f) => Normal ("function " +:+ f +:+ "() { [native code] }")
  end.

(** The run-time system in which every request settles as [respond] says. *)
Definition runtime (respond : Endpoint -> value -> completion value) : Runtime :=
  mkRuntime newDate today toStringOther respond.

Definition resolves (body : value) : Runtime := runtime (fun _ _ => Normal body).
Definition rejects (err : value) : Runtime := runtime (fun _ _ => Throw err).

Definition envelope (type message : string) (response : value) : value :=
  VObj [("type", VStr type); ("message", VStr message); ("response", response)].

Definition form (g relationship district : string) : Store.PatientFormData :=
  Store.mkForm "Sita" "Rai" g "34" "Years" "1990/01/01" "sita@example.org"
               "9800000000" relationship district "municipality_a" "4" "Tole 1".

Definition patient (id_ name : string) : Store.Patient :=
  Store.mkPatient (VStr id_) (VStr name) (VStr "Rai") (VStr "female") (VStr "34")
                  (VStr "Years") (VStr "1990/01/01") (VStr "") (VStr "9800000000")
                  (VStr "relative") (VStr "District 46") (VStr "Municipality A")
                  (VStr "4") (VStr "Tole 1") (VStr "2024/06/15") (VStr "2024/06/15").

Definition cached (id_ : string) : Hooks.Patient :=
  Hooks.mkPatient id_ (VStr "Sita") (VStr "Rai") (VStr "female") (VStr "34")
                  (VStr "2024") (VStr "1990-01-01") (VStr "sita@example.org")
                  (VStr "9800000000") (VStr "relative") (VStr "Kathmandu")
                  (VStr "Unknown") (VStr "1") (VStr "Tole 1")
                  (VStr "2024-06-01T00:00:00.000Z") (VStr "2024-06-01T00:00:00.000Z").

End Sample.

(** ** Vocabulary of the properties *)

(** No upper-case letter occurs in the string. *)
Fixpoint noUpper (s : string) : bool :=
  match s with
  | EmptyString => true
  | String c rest => negb (isUpper c) && noUpper rest
  end.

(** The shape shared by the six encode functions: a table, read with the
    lowered name, and a default code. *)
Definition encode (props : list (string * value)) (fallback name : string) : value :=
  get (VObj props) (toLowerCase name) ||| VStr fallback.

(** A field that holds a string or is missing. *)
Definition stringOrMissing (v : value) : Prop :=
  nullish v = true \/ exists s, v = VStr s.



Definition exclusive (s : Store.PatientState) : Prop :=
  Store.error s = VNull \/ Store.successMessage s = VNull.

(** The actions that clear or overwrite each message. *)
Definition writesError (a : Store.action) : bool :=
  match a with
  | Store.clearSuccessMessage | Store.updatePatient _ => false
  | _ => true
  end.
Definition writesSuccessMessage (a : Store.action) : bool :=
  match a with
  | Store.clearSuccessMessage | Store.resetPatientState
  | Store.createPatient_pending | Store.createPatient_fulfilled _ => true
  | _ => false
  end.

(** The test [updatePatient] applies to each patient of the list. *)
Definition sameId (payload p : Store.Patient) : bool :=
  strictEquals (Store.id p) (Store.id payload).

(** A cached entry once invalidated, and the entry a write leaves. *)
Definition stale (q : Hooks.query) : Hooks.query :=
  {| Hooks.data := Hooks.data q; Hooks.isInvalidated := true |}.
Definition fresh (p : Hooks.Patient) : Hooks.query :=
  {| Hooks.data := Some (Hooks.DPatient p); Hooks.isInvalidated := false |}.

(** ** Vocabulary of the further properties *)

(** The name, once lowered, is not the name of an inherited property. *)
Definition ordinaryName (name : string) : Prop :=
  toLowerCase name <> "constructor" /\ toLowerCase name <> "__proto__".

(** The fields of a patient of the store, in the order of the interface. *)
Definition fieldsOf (p : Store.Patient) : list value :=
  [ Store.id p; Store.firstName p; Store.lastName p; Store.gender p; Store.age p;
    Store.year p; Store.dateOfBirth p; Store.email p; Store.phone p;
    Store.relationship p; Store.district p; Store.vdcMunicipality p; Store.wardNo p;
    Store.tole p; Store.createdAt p; Store.updatedAt p ].

(** The birthday of this year is still to come. *)
Definition birthdayPending (today birth : DateFields) : bool :=
  (month today <? month birth)
  || ((month today =? month birth) && (dayOfMonth today <? dayOfMonth birth)).

(** The character occurs in the string. *)
Fixpoint occurs (c : ascii) (s : string) : bool :=
  match s with
  | EmptyString => false
  | String c' rest => Ascii.eqb c c' || occurs c rest
  end.

(** Every character of the string is a decimal digit. *)
Fixpoint allDigits (s : string) : bool :=
  match s with
  | EmptyString => true
  | String c rest => isDigit c && allDigits rest
  end.

(** Every character of the string is an ASCII character, so that the
    string methods of the engine act on it as their models here do. *)
Fixpoint asciiOnly (s : string) : bool :=
  match s with
  | EmptyString => true
  | String c rest => (nat_of_ascii c <? 128)%nat && asciiOnly rest
  end.

(** Every patient cached under a detail key carries the identifier of that
    key. *)
Definition wellKeyed (cache : gmap (list Hooks.segment) Hooks.query) : Prop :=
  forall id p,
    Hooks.getQueryData_Patient (Hooks.patientKeys.detail id) cache = Some p ->
    Hooks.p_id p = id.

(** * Properties *)

(** ** Translation registries *)

Section Registries.

Lemma lowerChar_not_upper c : isUpper (lowerChar c) = false.
Proof. destruct c as [[] [] [] [] [] [] [] []]; reflexivity. Qed.

Lemma toLowerCase_noUpper s : noUpper (toLowerCase s) = true.
Proof.
  induction s as [|c rest IH]; simpl; [reflexivity|].
  rewrite lowerChar_not_upper. exact IH.
Qed.

Lemma toLowerCase_idempotent s : toLowerCase (toLowerCase s) = toLowerCase s.
Proof.
  unfold toLowerCase.
  induction s as [|c rest IH]; simpl; [reflexivity|].
  rewrite IH. unfold lowerChar at 1. now rewrite lowerChar_not_upper.
Qed.

(** Of the inherited properties only two have an all-lower-case name, so
    only those two can be reached by a lowered key. *)
Lemma inherited_lowered name v :
  own (toLowerCase name) objectPrototype = Some v ->
  toLowerCase name = "constructor" \/ toLowerCase name = "__proto__".
Proof.
  intros H. pose proof (toLowerCase_noUpper name) as U.
  remember (toLowerCase name) as k eqn:E. clear E name.
  unfold objectPrototype in H. cbn [own] in H.
  repeat match type of H with
         | (if String.eqb k ?lit then _ else _) = _ =>
             destruct (String.eqb_spec k lit) as [Ek|_];
             [first [ now left | now right | rewrite Ek in U; discriminate U ] | ]
         end.
  discriminate H.
Qed.

Variable props : list (string * value).
Variable fallback : string.
Hypothesis fallback_nonempty : fallback <> "".

Lemma fallback_truthy : truthy (VStr fallback) = true.
Proof.
  simpl. destruct (String.eqb_spec fallback ""); [contradiction|reflexivity].
Qed.

(** An encode function never yields a falsy value, [undefined] included. *)
Lemma encode_truthy name : truthy (encode props fallback name) = true.
Proof.
  unfold encode, or_.
  destruct (truthy (get (VObj props) (toLowerCase name))) eqn:T; [exact T|].
  apply fallback_truthy.
Qed.

(** A name in the table yields the table's code. *)
Lemma encode_known name code :
  own (toLowerCase name) props = Some (VStr code) -> code <> "" ->
  encode props fallback name = VStr code.
Proof.
  intros H Hc. unfold encode, or_, get. rewrite H. simpl.
  destruct (String.eqb_spec code ""); [contradiction|reflexivity].
Qed.

(** A name that is neither in the table nor the lowered name of an
    inherited property yields the default code. *)
Lemma encode_unknown name :
  own (toLowerCase name) props = None ->
  toLowerCase name <> "constructor" -> toLowerCase name <> "__proto__" ->
  encode props fallback name = VStr fallback.
Proof.
  intros H Hc Hp. unfold encode, or_, get. rewrite H.
  destruct (own (toLowerCase name) objectPrototype) as [v|] eqn:I.
  - destruct (inherited_lowered _ _ I); contradiction.
  - reflexivity.
Qed.

(** Case of the name is immaterial. *)
Lemma encode_case_insensitive name :
  encode props fallback (toLowerCase name) = encode props fallback name.
Proof. unfold encode. now rewrite toLowerCase_idempotent. Qed.

End Registries.






(** No encoder returns a falsy value, whatever the name. *)
Lemma encoders_truthy name :
  truthy (Store.getRelationshipId name) = true
  /\ truthy (Store.getDistrictId name) = true
  /\ truthy (Store.getVdcId name) = true
  /\ truthy (Hooks.getRelationId name) = true
  /\ truthy (Hooks.getDistrictId name) = true
  /\ truthy (Hooks.getVdcId name) = true.
Proof.
  repeat split.
  - now apply (encode_truthy (entries Store.relationMap) "9").
  - now apply (encode_truthy (entries Store.districtMap) "46").
  - now apply (encode_truthy (entries Store.vdcMap) "1147").
  - now apply (encode_truthy (entries Hooks.relationMap) "9").
  - now apply (encode_truthy (entries Hooks.districtMap) "45").
  - now apply (encode_truthy (entries Hooks.vdcMap) "1147").
Qed.

Example scenario_sister_brother :
  Store.getRelationshipId "sister" = Store.getRelationshipId "brother"
  /\ Store.getDistrictId "Unknown City" = VStr "46"
  /\ Store.getDistrictId "Kathmandu" = Store.getDistrictId "kathmandu".
Proof. repeat split; reflexivity. Qed.

(** C5 (the code departs from the claim).  The encode functions read their
    table with a computed key, and the table is an object literal with the
    usual prototype: on the name "constructor", which is in no table, each of
    them returns the inherited [Object] function, not the default code of
    its category. *)
Theorem encode_inherited_name :
  Store.getRelationshipId "constructor" = VNative (NFunction "Object")
  /\ Store.getDistrictId "constructor" = VNative (NFunction "Object")
  /\ Store.getVdcId "constructor" = VNative (NFunction "Object")
  /\ Hooks.getRelationId "Constructor" = VNative (NFunction "Object")
  /\ Hooks.getDistrictId "__proto__" = VNative NObjectPrototype
  /\ Hooks.getVdcId "constructor" = VNative (NFunction "Object")
  /\ Store.getRelationshipId "constructor" <> VStr "9"
  /\ Store.getDistrictId "constructor" <> VStr "46"
  /\ Store.getVdcId "constructor" <> VStr "1147".
Proof. repeat split; try reflexivity; discriminate. Qed.

(** C9.  The two registries give the district "kathmandu" different codes,
    so the two district encoders are different functions. *)
Theorem registries_disagree :
  Store.getDistrictId "kathmandu" = VStr "46"
  /\ Hooks.getDistrictId "kathmandu" = VStr "45"
  /\ (exists name, Store.getDistrictId name <> Hooks.getDistrictId name)
  /\ Store.getDistrictId <> Hooks.getDistrictId.
Proof.
  split; [reflexivity|]. split; [reflexivity|]. split.
  - exists "kathmandu". discriminate.
  - intros E. apply (f_equal (fun f => f "kathmandu")) in E. discriminate E.
Qed.

(** ** Entity transformer *)

(** The cache-path payload capitalises the three genders of the domain
    model, and the store-path payload maps the first two of them. *)
Lemma hooks_gender_capitalised fn ln a y dob e ph r d v w t :
  get (Hooks.apiData (Hooks.mkData fn ln "male" a y dob e ph r d v w t)) "gender" = VStr "Male"
  /\ get (Hooks.apiData (Hooks.mkData fn ln "female" a y dob e ph r d v w t)) "gender"
     = VStr "Female"
  /\ get (Hooks.apiData (Hooks.mkData fn ln "other" a y dob e ph r d v w t)) "gender"
     = VStr "Other".
Proof. repeat split; reflexivity. Qed.

Lemma store_gender_male_female fn ln a y dob e ph r d v w t :
  get (Store.apiData (Store.mkForm fn ln "male" a y dob e ph r d v w t)) "gender" = VStr "Male"
  /\ get (Store.apiData (Store.mkForm fn ln "female" a y dob e ph r d v w t)) "gender"
     = VStr "Female".
Proof. split; reflexivity. Qed.

(** The store-path payload calls everything that is not "male" "Female". *)
Lemma store_gender_binary patientData :
  get (Store.apiData patientData) "gender"
  = VStr (if String.eqb (Store.form_gender patientData) "male" then "Male" else "Female").
Proof. reflexivity. Qed.

(** C4 (the code departs from the claim).  For a form whose gender is
    "other" the store-path payload carries "Female", where the cache-path
    payload of the same form carries the capitalised "Other". *)
Theorem store_gender_other_is_Female fn ln a y dob e ph r d v w t :
  get (Store.apiData (Store.mkForm fn ln "other" a y dob e ph r d v w t)) "gender"
  = VStr "Female"
  /\ get (Hooks.apiData (Hooks.mkData fn ln "other" a y dob e ph r d v w t)) "gender"
     = VStr "Other"
  /\ get (Store.apiData (Store.mkForm fn ln "other" a y dob e ph r d v w t)) "gender"
     <> VStr "Other".
Proof. repeat split; try reflexivity; discriminate. Qed.

Section Transformer.

Variable rt : Runtime.

Lemma calculateAge_falsy dob : truthy dob = false -> Store.calculateAge rt dob = "Unknown".
Proof. intros H. unfold Store.calculateAge. now rewrite H. Qed.

Lemma calculateAge_throws dob e :
  newDate rt dob = Throw e -> Store.calculateAge rt dob = "Unknown".
Proof.
  intros H. unfold Store.calculateAge.
  destruct (truthy dob); [|reflexivity]. simpl. now rewrite H.
Qed.

Lemma calculateAge_invalid dob :
  truthy dob = true -> newDate rt dob = Normal None -> Store.calculateAge rt dob = "NaN".
Proof. intros T H. unfold Store.calculateAge. rewrite T. simpl. now rewrite H. Qed.

(** The age of a valid date of birth: the difference of the years, less
    one when the birthday is still to come this year. *)
Lemma calculateAge_valid dob b :
  truthy dob = true -> newDate rt dob = Normal (Some b) ->
  Store.calculateAge rt dob
  = pretty (if (month (now rt) <? month b)
               || ((month (now rt) =? month b) && (dayOfMonth (now rt) <? dayOfMonth b))
            then fullYear (now rt) - fullYear b - 1
            else fullYear (now rt) - fullYear b).
Proof.
  intros T H. unfold Store.calculateAge. rewrite T. simpl. rewrite H. simpl.
  replace (month (now rt) - month b <? 0) with (month (now rt) <? month b)
    by (destruct (Z.ltb_spec (month (now rt)) (month b));
        destruct (Z.ltb_spec (month (now rt) - month b) 0); lia || reflexivity).
  replace (month (now rt) - month b =? 0) with (month (now rt) =? month b)
    by (destruct (Z.eqb_spec (month (now rt)) (month b));
        destruct (Z.eqb_spec (month (now rt) - month b) 0); lia || reflexivity).
  now destruct (_ || _).
Qed.

(** What [transformPatientData] puts in the [age] field. *)
Lemma transform_age apiPatient p :
  Store.transformPatientData rt apiPatient = Normal p ->
  Store.age p
  = VStr (Store.calculateAge rt (get apiPatient "dobbs" ||| get apiPatient "dobad")).
Proof.
  unfold Store.transformPatientData, getE. intros H.
  destruct (nullish apiPatient); [discriminate H|]. simpl in H.
  destruct (Store.gender_lower_trim apiPatient); [|discriminate H].
  destruct (toString_ rt (_ ||| VStr "undefined")); [|discriminate H].
  destruct (toString_ rt (_ ||| VStr "A")); [|discriminate H].
  simpl in H. injection H as <-. reflexivity.
Qed.

(** A record with neither date-of-birth field has the age "Unknown". *)
Lemma transform_age_missing_dob apiPatient p :
  get apiPatient "dobbs" = VUndefined -> get apiPatient "dobad" = VUndefined ->
  Store.transformPatientData rt apiPatient = Normal p ->
  Store.age p = VStr "Unknown".
Proof.
  intros Hbs Had H. rewrite (transform_age _ _ H), Hbs, Had. reflexivity.
Qed.

Lemma getE_nullish_false v k : nullish v = false -> getE v k = Normal (get v k).
Proof. intros H. unfold getE. now rewrite H. Qed.

(** The transformation completes on a record that is neither [null] nor
    [undefined], whose gender is a string or is missing and whose district
    and municipality names are strings or are missing. *)
Lemma transform_completes apiPatient :
  nullish apiPatient = false ->
  stringOrMissing (get apiPatient "gender") ->
  stringOrMissing (get apiPatient "districtname") ->
  stringOrMissing (get apiPatient "vdcname") ->
  exists p, Store.transformPatientData rt apiPatient = Normal p.
Proof.
  intros Hn Hg Hd Hv. unfold Store.transformPatientData, Store.gender_lower_trim.
  rewrite (getE_nullish_false apiPatient "midasid" Hn). simpl.
  assert (G : exists g, match get apiPatient "gender" with
                        | VUndefined | VNull => Normal VUndefined
                        | VStr s => Normal (VStr (trim (toLowerCase s)))
                        | _ => Throw (typeError "apiPatient.gender?.toLowerCase is not a function")
                        end = Normal g).
  { destruct Hg as [N|[s ->]]; [|eauto].
    destruct (get apiPatient "gender"); try discriminate N; eauto. }
  destruct G as [g ->]. simpl.
  assert (S : forall v dflt, stringOrMissing v -> exists s, toString_ rt (v ||| VStr dflt) = Normal s).
  { intros v dflt [N|[s ->]].
    - destruct v; try discriminate N; unfold or_; simpl; eauto.
    - unfold or_. destruct (truthy (VStr s)); simpl; eauto. }
  destruct (S _ "undefined" Hd) as [d ->]. destruct (S _ "A" Hv) as [m ->].
  simpl. eauto.
Qed.

End Transformer.

(** C3 (the code departs from the claim).  When the date of birth is a
    value the [Date] constructor cannot parse, the constructor does not
    raise: it yields the Invalid Date, whose getters return [NaN], the
    [catch] branch is not taken, and the age is "NaN" instead of
    "Unknown". *)
Theorem age_of_unparseable_dob rt apiPatient dob :
  get apiPatient "dobbs" ||| get apiPatient "dobad" = dob ->
  truthy dob = true ->
  newDate rt dob = Normal None ->
  Store.calculateAge rt dob = "NaN"
  /\ forall p, Store.transformPatientData rt apiPatient = Normal p ->
               Store.age p = VStr "NaN" /\ Store.age p <> VStr "Unknown".
Proof.
  intros Hdob T H. pose proof (calculateAge_invalid rt dob T H) as A.
  split; [exact A|]. intros p Hp.
  rewrite (transform_age rt _ _ Hp), Hdob, A. split; [reflexivity|discriminate].
Qed.

Lemma age_of_unparseable_dob_witness :
  let rt := Sample.resolves VNull in
  let apiPatient := VObj [("userid", VNum 12); ("dobad", VStr "not a date")] in
  exists p, Store.transformPatientData rt apiPatient = Normal p
            /\ Store.age p = VStr "NaN" /\ Store.age p <> VStr "Unknown".
Proof.
  intros rt apiPatient.
  destruct (age_of_unparseable_dob rt apiPatient (VStr "not a date")
              eq_refl eq_refl eq_refl) as [_ H].
  eexists. split; [reflexivity|]. apply H. reflexivity.
Defined.

(** ** Synchronisation store *)

Section Fetch.

Variable rt : Runtime.


Lemma getE_defined v k : nullish v = false -> getE v k = Normal (get v k).
Proof. intros H. unfold getE. now rewrite H. Qed.




(** A rejected fetch leaves the list as it was, ends the loading, and
    stores the rejection value as the error. *)
Lemma fetch_rejected_frame v state :
  Store.fetchPatients rt = Store.RejectWithValue v ->
  Store.patients (Store.dispatch_fetchPatients rt state) = Store.patients state
  /\ Store.loading (Store.dispatch_fetchPatients rt state) = false
  /\ Store.error (Store.dispatch_fetchPatients rt state) = v.
Proof. intros H. unfold Store.dispatch_fetchPatients. rewrite H. simpl. auto. Qed.

(** A transport error is reported by the message of the error response,
    else the message of the error, else the generic text. *)
Lemma fetch_transport_error err :
  post rt getPatients (VObj []) = Throw err ->
  Store.fetchPatients rt
  = Store.RejectWithValue
      (getOpt (getOpt (getOpt err "response") "data") "message"
       ||| getOpt err "message"
       ||| VStr "Network error occurred while fetching patients").
Proof. intros H. unfold Store.fetchPatients. now rewrite H. Qed.

Lemma or_truthy_r a b : truthy b = true -> truthy (a ||| b) = true.
Proof. intros H. unfold or_. now destruct (truthy a) eqn:T. Qed.

(** The error of a rejected fetch is never [null]: every rejection value
    is truthy. *)
Lemma fetch_rejection_truthy v :
  Store.fetchPatients rt = Store.RejectWithValue v -> truthy v = true.
Proof.
  unfold Store.fetchPatients.
  match goal with |- context [match ?c with Normal r => r | Throw _ => _ end] =>
    destruct c as [r|err] eqn:E end.
  - intros ->. revert E.
    destruct (post rt getPatients (VObj [])) as [data|]; simpl; [|discriminate].
    destruct (getE data "type") as [type|]; simpl; [|discriminate].
    destruct (negb (strictEquals type (VStr "success"))).
    + intros [= <-]. reflexivity.
    + destruct (getE data "response") as [response|]; simpl; [|discriminate].
      destruct (getE response "list") as [list_|]; simpl; [|discriminate].
      destruct (getE response "my") as [my|]; simpl; [|discriminate].
      match goal with |- context [mbind _ ?c] => destruct c; simpl; [|discriminate] end.
      match goal with |- context [mbind _ ?c] => destruct c; simpl; [|discriminate] end.
      discriminate.
  - intros [= <-]. now apply or_truthy_r.
Qed.

(** C2 (the code departs from the claim).  When the service answers with
    a type other than "success", the fetch is rejected with a fixed text
    and the message of the answer is not consulted. *)
Theorem fetch_non_success_message data message state :
  post rt getPatients (VObj []) = Normal data ->
  nullish data = false ->
  strictEquals (get data "type") (VStr "success") = false ->
  get data "message" = VStr message ->
  Store.fetchPatients rt
  = Store.RejectWithValue (VStr "Failed to fetch patients from server")
  /\ Store.error (Store.dispatch_fetchPatients rt state)
     = VStr "Failed to fetch patients from server"
  /\ (message <> "Failed to fetch patients from server" ->
      Store.error (Store.dispatch_fetchPatients rt state) <> get data "message").
Proof.
  intros Hpost Hnn Htype Hmsg.
  assert (F : Store.fetchPatients rt
              = Store.RejectWithValue (VStr "Failed to fetch patients from server")).
  { unfold Store.fetchPatients. rewrite Hpost. simpl.
    rewrite (getE_defined data "type" Hnn). simpl. now rewrite Htype. }
  split; [exact F|].
  unfold Store.dispatch_fetchPatients. rewrite F. simpl.
  split; [reflexivity|]. rewrite Hmsg. congruence.
Qed.

End Fetch.

Example scenario_own_record_only :
  let rt := Sample.resolves
              (Sample.envelope "success" "Relative List"
                 (VObj [("my", VObj [("midasid", VStr "1"); ("fname", VStr "A");
                                     ("lname", VStr "B"); ("gender", VStr "Male");
                                     ("dobad", VStr "1990-01-01")]);
                        ("list", VArr [])])) in
  exists p, Store.patients (Store.dispatch_fetchPatients rt Store.initialState) = [p]
            /\ Store.id p = VStr "1" /\ Store.firstName p = VStr "A"
            /\ Store.gender p = VStr "male" /\ Store.age p = VStr "34".
Proof. eexists. repeat split; reflexivity. Qed.

(** A record whose gender is a number makes the transformer raise, and the
    fetch of a "success" answer is then rejected. *)
Example fetch_success_transformer_raises :
  let response := VObj [("list", VArr [VObj [("userid", VNum 12); ("gender", VNum 1)]])] in
  let rt := Sample.resolves (Sample.envelope "success" "Relative List" response) in
  Store.fetchPatients rt
  = Store.RejectWithValue (VStr "apiPatient.gender?.toLowerCase is not a function").
Proof. reflexivity. Qed.



Lemma fetch_non_success_message_witness :
  let data := Sample.envelope "error" "Session expired" VNull in
  let state := {| Store.patients := [Sample.patient "1" "Sita"]; Store.loading := false;
                  Store.error := VNull; Store.successMessage := VNull |} in
  get data "message" = VStr "Session expired"
  /\ Store.error (Store.dispatch_fetchPatients (Sample.resolves data) state)
     = VStr "Failed to fetch patients from server".
Proof.
  intros data state. split; [reflexivity|].
  exact (proj1 (proj2 (fetch_non_success_message (Sample.resolves data) data
                         "Session expired" state eq_refl eq_refl eq_refl eq_refl))).
Defined.

Section Create.

Variable rt : Runtime.


(** A create that fails leaves the list as it was and stores a truthy
    error: the message of the answer or of the transport error, else a
    generic text. *)
Lemma create_rejection_truthy patientData v :
  Store.createPatient rt patientData = Store.RejectWithValue v -> truthy v = true.
Proof.
  unfold Store.createPatient.
  destruct (post rt addPatient (Store.apiData patientData)) as [data|err]; simpl.
  - destruct (getE data "type") as [type|err]; simpl.
    + destruct (negb (strictEquals type (VStr "success"))); [|discriminate].
      intros [= <-]. now apply or_truthy_r.
    + intros [= <-]. now apply or_truthy_r.
  - intros [= <-]. now apply or_truthy_r.
Qed.

Lemma create_non_success_message patientData data :
  post rt addPatient (Store.apiData patientData) = Normal data ->
  nullish data = false ->
  strictEquals (get data "type") (VStr "success") = false ->
  Store.createPatient rt patientData
  = Store.RejectWithValue (get data "message" ||| VStr "Failed to create patient").
Proof.
  intros Hpost Hd Htype. unfold Store.createPatient. rewrite Hpost. simpl.
  rewrite (getE_defined data "type" Hd). simpl. now rewrite Htype.
Qed.

End Create.


Section Lifecycle.

Variable rt : Runtime.

Lemma fetch_pending_exclusive state : exclusive (Store.reducer state Store.fetchPatients_pending).
Proof. now left. Qed.

Lemma create_pending_exclusive state :
  exclusive (Store.reducer state Store.createPatient_pending).
Proof. now left. Qed.

(** No transition of a fetch touches the success message. *)
Lemma fetch_keeps_successMessage state :
  Store.successMessage (Store.reducer state Store.fetchPatients_pending)
  = Store.successMessage state
  /\ Store.successMessage (Store.dispatch_fetchPatients rt state) = Store.successMessage state.
Proof.
  split; [reflexivity|]. unfold Store.dispatch_fetchPatients.
  now destruct (Store.fetchPatients rt).
Qed.

Lemma create_exclusive patientData state :
  exclusive (Store.dispatch_createPatient rt patientData state).
Proof.
  unfold Store.dispatch_createPatient.
  destruct (Store.createPatient rt patientData); simpl; [now left|now right].
Qed.

(** C8 (amended).  Through the lifecycle of one create the error and the
    success message are never both set, whatever the state it starts
    from; through the lifecycle of one fetch, which leaves the success
    message as it found it, they are never both set when the fetch starts
    with no success message.  Each message is kept by every action other
    than those that clear or overwrite it. *)
Theorem messages_exclusive_and_persistent patientData state :
  (exclusive (Store.reducer state Store.createPatient_pending)
   /\ exclusive (Store.dispatch_createPatient rt patientData state))
  /\ (Store.successMessage state = VNull ->
      exclusive (Store.reducer state Store.fetchPatients_pending)
      /\ exclusive (Store.dispatch_fetchPatients rt state))
  /\ (forall a, writesError a = false ->
                Store.error (Store.reducer state a) = Store.error state)
  /\ (forall a, writesSuccessMessage a = false ->
                Store.successMessage (Store.reducer state a) = Store.successMessage state).
Proof.
  split; [split; [apply create_pending_exclusive|apply create_exclusive]|].
  split.
  - intros H. split; [apply fetch_pending_exclusive|].
    right. now rewrite (proj2 (fetch_keeps_successMessage state)).
  - split; intros a Ha; destruct a; try discriminate Ha; simpl; try reflexivity;
      now destruct (negb _).
Qed.

End Lifecycle.

(** C8, as stated, fails: a create has succeeded and left its success
    message, the list is fetched again as the screen does after a create,
    and the fetch fails; the store then holds an error and a success
    message at once. *)
Lemma fetch_error_beside_success_message :
  let state := {| Store.patients := []; Store.loading := false; Store.error := VNull;
                  Store.successMessage := VStr "Relative added successfully" |} in
  let state' := Store.dispatch_fetchPatients (Sample.rejects (newError "Network Error")) state in
  Store.error state' = VStr "Network Error"
  /\ Store.successMessage state' = VStr "Relative added successfully"
  /\ ~ exclusive state'.
Proof.
  intros state state'. split; [reflexivity|]. split; [reflexivity|].
  intros [H|H]; discriminate H.
Qed.

Lemma messages_exclusive_and_persistent_witness :
  let rt := Sample.rejects (newError "Network Error") in
  let state := {| Store.patients := [Sample.patient "1" "Sita"]; Store.loading := false;
                  Store.error := VStr "stale"; Store.successMessage := VNull |} in
  exclusive (Store.dispatch_fetchPatients rt state)
  /\ Store.error (Store.dispatch_fetchPatients rt state) = VStr "Network Error"
  /\ Store.error (Store.reducer state Store.clearSuccessMessage) = VStr "stale".
Proof.
  intros rt state.
  destruct (messages_exclusive_and_persistent rt (Sample.form "male" "son" "Chitwan") state)
    as (_ & F & E & _).
  split; [exact (proj2 (F eq_refl))|]. split; [reflexivity|].
  exact (E Store.clearSuccessMessage eq_refl).
Defined.

Section UpdatePatient.

Variable payload : Store.Patient.

Lemma findIndex_from_none (l : list Store.Patient) : forall i,
  (forall p, p ∈ l -> sameId payload p = false) -> Store.findIndex_from (sameId payload) i l = -1.
Proof.
  induction l as [|x rest IH]; intros i H; simpl; [reflexivity|].
  rewrite (H x) by (left). apply IH. intros p Hp. apply H. now right.
Qed.

Lemma findIndex_from_first (l : list Store.Patient) : forall i n p,
  l !! n = Some p -> sameId payload p = true ->
  (forall j q, (j < n)%nat -> l !! j = Some q -> sameId payload q = false) ->
  Store.findIndex_from (sameId payload) i l = i + Z.of_nat n.
Proof.
  induction l as [|x rest IH]; intros i n p Hn Hp Hbefore; [discriminate Hn|].
  destruct n as [|n]; simpl in *.
  - injection Hn as ->. rewrite Hp. lia.
  - rewrite (Hbefore 0%nat x) by (lia || reflexivity).
    rewrite (IH (i + 1) n p Hn Hp); [lia|].
    intros j q Hj Hq. apply (Hbefore (S j) q); [lia|exact Hq].
Qed.

(** C10.  [updatePatient] replaces by identifier: with no patient of the
    payload's id the state is unchanged; otherwise the first patient with
    that id is replaced by the payload, the list keeps its length and
    every other entry, and the three other fields are unchanged. *)
Theorem updatePatient_replaces_first state :
  let state' := Store.reducer state (Store.updatePatient payload) in
  ((forall p, p ∈ Store.patients state -> sameId payload p = false) -> state' = state)
  /\ (forall i p,
        Store.patients state !! i = Some p -> sameId payload p = true ->
        (forall j q, (j < i)%nat -> Store.patients state !! j = Some q -> sameId payload q = false) ->
        Store.patients state' = <[i := payload]> (Store.patients state)
        /\ Store.patients state' !! i = Some payload
        /\ (forall j, j <> i -> Store.patients state' !! j = Store.patients state !! j)
        /\ length (Store.patients state') = length (Store.patients state)
        /\ Store.loading state' = Store.loading state
        /\ Store.error state' = Store.error state
        /\ Store.successMessage state' = Store.successMessage state).
Proof.
  intros state'. subst state'. simpl. unfold Store.findIndex.
  change (fun p => strictEquals (Store.id p) (Store.id payload)) with (sameId payload). split.
  - intros H. now rewrite (findIndex_from_none _ 0 H).
  - intros i p Hi Hp Hbefore.
    rewrite (findIndex_from_first _ 0 i p Hi Hp Hbefore).
    replace (negb (0 + Z.of_nat i =? -1)) with true
      by (symmetry; apply negb_true_iff, Z.eqb_neq; lia).
    replace (Z.to_nat (0 + Z.of_nat i)) with i by lia. simpl.
    split; [reflexivity|]. split.
    { apply list_lookup_insert_eq. now apply lookup_lt_Some in Hi. }
    split; [intros j Hj; now apply list_lookup_insert_ne|].
    split; [apply length_insert|]. auto.
Qed.

End UpdatePatient.

Lemma updatePatient_replaces_first_witness :
  let state := {| Store.patients := [Sample.patient "1" "Sita"; Sample.patient "2" "Hari";
                                     Sample.patient "2" "Gita"];
                  Store.loading := false; Store.error := VNull;
                  Store.successMessage := VStr "Relative added successfully" |} in
  Store.patients (Store.reducer state (Store.updatePatient (Sample.patient "2" "Maya")))
  = [Sample.patient "1" "Sita"; Sample.patient "2" "Maya"; Sample.patient "2" "Gita"]
  /\ Store.reducer state (Store.updatePatient (Sample.patient "3" "Maya")) = state.
Proof.
  intros state. split.
  - destruct (updatePatient_replaces_first (Sample.patient "2" "Maya") state) as [_ H].
    destruct (H 1%nat (Sample.patient "2" "Hari") eq_refl eq_refl) as [E _]; [|exact E].
    intros j q Hj Hq. destruct j as [|j]; [|lia]. injection Hq as <-. reflexivity.
  - destruct (updatePatient_replaces_first (Sample.patient "3" "Maya") state) as [H _].
    apply H. intros p Hp.
    repeat (apply elem_of_cons in Hp as [->|Hp]; [reflexivity|]).
    now apply elem_of_nil in Hp.
Defined.

(** ** Cache layer *)

Section Cache.

Import Hooks.

Implicit Types (cache : queryCache) (key : queryKey) (q : query).

Lemma lookup_invalidateQueries partial cache key :
  invalidateQueries partial cache !! key
  = (fun q => if matches partial key then stale q else q) <$> cache !! key.
Proof.
  unfold invalidateQueries. rewrite map_lookup_imap.
  now destruct (cache !! key).
Qed.

Lemma lookup_removeQueries_matching partial cache key :
  matches partial key = true -> removeQueries partial cache !! key = None.
Proof.
  intros M. unfold removeQueries. apply map_lookup_filter_None.
  right. intros q _. simpl. congruence.
Qed.

Lemma lookup_removeQueries_other partial cache key :
  matches partial key = false -> removeQueries partial cache !! key = cache !! key.
Proof.
  intros M. unfold removeQueries.
  destruct (cache !! key) as [q|] eqn:L.
  - apply map_lookup_filter_Some. split; [exact L|exact M].
  - apply map_lookup_filter_None. now left.
Qed.

Lemma matches_refl key : matches key key = true.
Proof. apply bool_decide_eq_true. reflexivity. Qed.

(** A detail key is no list key, and a list key lies under no detail
    key. *)
Lemma detail_not_under_lists id : matches patientKeys.lists (patientKeys.detail id) = false.
Proof.
  apply bool_decide_eq_false. intros H.
  apply prefix_cons_inv_2, prefix_cons_inv_1 in H. discriminate H.
Qed.

Lemma lists_not_under_detail id key :
  matches patientKeys.lists key = true -> matches (patientKeys.detail id) key = false.
Proof.
  intros H. apply bool_decide_eq_true in H. apply bool_decide_eq_false. intros D.
  destruct key as [|a [|b rest]].
  - apply prefix_nil_not in H. exact H.
  - apply prefix_cons_inv_2, prefix_nil_not in H. exact H.
  - apply prefix_cons_inv_2, prefix_cons_inv_1 in H.
    apply prefix_cons_inv_2, prefix_cons_inv_1 in D. congruence.
Qed.

Lemma lists_not_detail id key :
  matches patientKeys.lists key = true -> patientKeys.detail id <> key.
Proof.
  intros H <-. rewrite detail_not_under_lists in H. discriminate H.
Qed.

Lemma merge_keeps_id rt existingPatient d : p_id (merge rt existingPatient d) = p_id existingPatient.
Proof. reflexivity. Qed.

Lemma useUpdatePatient_found rt id d cache existingPatient :
  getQueryData_Patient (patientKeys.detail id) cache = Some existingPatient ->
  useUpdatePatient rt id d cache = update_onSuccess (merge rt existingPatient d) cache.
Proof. intros H. unfold useUpdatePatient, update_mutationFn. now rewrite H. Qed.

(** An update of a patient that is not in the cache changes nothing. *)
Lemma useUpdatePatient_not_found rt id d cache :
  getQueryData_Patient (patientKeys.detail id) cache = None ->
  useUpdatePatient rt id d cache = cache.
Proof. intros H. unfold useUpdatePatient, update_mutationFn. now rewrite H. Qed.

Lemma useCreatePatient_resolved rt d cache response :
  create_mutationFn rt d = Normal response ->
  useCreatePatient rt d cache = create_onSuccess response cache.
Proof. intros H. unfold useCreatePatient. now rewrite H. Qed.

Lemma useDeletePatient_resolved id cache : useDeletePatient id cache = delete_onSuccess id cache.
Proof. reflexivity. Qed.

(** C7.  On success each of the three mutations marks stale every cached
    entry under the list key, the list key's own entry among them; the
    update stores the merged patient, as fresh data, under the detail key
    of that patient, the merged patient being the cached one with every
    field the edit supplies replaced by the edit's text, its [id] and
    [createdAt] kept, and [updatedAt] set to the current time; the delete
    leaves no entry under the detail key of the deleted patient. *)
Theorem mutations_keep_cache_consistent cache :
  (forall response key q,
      cache !! key = Some q -> matches patientKeys.lists key = true ->
      create_onSuccess response cache !! key = Some (stale q))
  /\ (forall updatedPatient,
        update_onSuccess updatedPatient cache !! patientKeys.detail (p_id updatedPatient)
        = Some (fresh updatedPatient)
        /\ forall key q,
            cache !! key = Some q -> matches patientKeys.lists key = true ->
            update_onSuccess updatedPatient cache !! key = Some (stale q))
  /\ (forall rt id d existingPatient,
        getQueryData_Patient (patientKeys.detail id) cache = Some existingPatient ->
        useUpdatePatient rt id d cache !! patientKeys.detail (p_id existingPatient)
        = Some (fresh
            {| p_id := p_id existingPatient;
               p_firstName := from_option VStr (p_firstName existingPatient) (d_firstName d);
               p_lastName := from_option VStr (p_lastName existingPatient) (d_lastName d);
               p_gender := from_option VStr (p_gender existingPatient) (d_gender d);
               p_age := from_option VStr (p_age existingPatient) (d_age d);
               p_year := from_option VStr (p_year existingPatient) (d_year d);
               p_dateOfBirth :=
                 from_option VStr (p_dateOfBirth existingPatient) (d_dateOfBirth d);
               p_email := from_option VStr (p_email existingPatient) (d_email d);
               p_phone := from_option VStr (p_phone existingPatient) (d_phone d);
               p_relationship :=
                 from_option VStr (p_relationship existingPatient) (d_relationship d);
               p_district := from_option VStr (p_district existingPatient) (d_district d);
               p_vdcMunicipality :=
                 from_option VStr (p_vdcMunicipality existingPatient) (d_vdcMunicipality d);
               p_wardNo := from_option VStr (p_wardNo existingPatient) (d_wardNo d);
               p_tole := from_option VStr (p_tole existingPatient) (d_tole d);
               p_createdAt := p_createdAt existingPatient;
               p_updatedAt := VStr (isoString (now rt)) |}))
  /\ (forall deletedId,
        delete_onSuccess deletedId cache !! patientKeys.detail deletedId = None
        /\ forall key q,
            cache !! key = Some q -> matches patientKeys.lists key = true ->
            delete_onSuccess deletedId cache !! key = Some (stale q)).
Proof.
  assert (U : forall updatedPatient,
             update_onSuccess updatedPatient cache !! patientKeys.detail (p_id updatedPatient)
             = Some (fresh updatedPatient)).
  { intros updatedPatient. unfold update_onSuccess, setQueryData.
    rewrite lookup_invalidateQueries, lookup_insert_eq, detail_not_under_lists.
    reflexivity. }
  split; [|split; [|split]].
  - intros response key q L M. unfold create_onSuccess.
    now rewrite lookup_invalidateQueries, L, M.
  - intros updatedPatient. split; [apply U|].
    intros key q L M. unfold update_onSuccess, setQueryData.
    rewrite lookup_invalidateQueries, lookup_insert_ne by now apply lists_not_detail.
    now rewrite L, M.
  - intros rt id d existingPatient H.
    rewrite (useUpdatePatient_found _ _ _ _ _ H).
    exact (U (merge rt existingPatient d)).
  - intros deletedId. split.
    + unfold delete_onSuccess.
      rewrite lookup_invalidateQueries, lookup_removeQueries_matching by apply matches_refl.
      reflexivity.
    + intros key q L M. unfold delete_onSuccess.
      rewrite lookup_invalidateQueries, lookup_removeQueries_other
        by now apply lists_not_under_detail.
      now rewrite L, M.
Qed.

End Cache.

Lemma mutations_keep_cache_consistent_witness :
  let rt := Sample.resolves (VObj []) in
  let listed := {| Hooks.data := Some (Hooks.DPatients [Sample.cached "7"]);
                   Hooks.isInvalidated := false |} in
  let cache : gmap (list Hooks.segment) Hooks.query :=
    <[Hooks.patientKeys.lists := listed]>
      (<[Hooks.patientKeys.detail "7" := fresh (Sample.cached "7")]> ∅) in
  let created := Hooks.mkData "Sita" "Rai" "female" "34" "Years" "" "" "9800000000"
                              "sibling" "kathmandu" "municipality_a" "4" "Tole 1" in
  let edit := Hooks.mkPartial (Some "Gita") None None None None None None
                              (Some "9811111111") None None None None None in
  Hooks.useCreatePatient rt created cache !! Hooks.patientKeys.lists = Some (stale listed)
  /\ Hooks.useUpdatePatient rt "7" edit cache !! Hooks.patientKeys.detail "7"
     = Some {| Hooks.data :=
                 Some (Hooks.DPatient
                   (Hooks.mkPatient "7" (VStr "Gita") (VStr "Rai") (VStr "female") (VStr "34")
                      (VStr "2024") (VStr "1990-01-01") (VStr "sita@example.org")
                      (VStr "9811111111") (VStr "relative") (VStr "Kathmandu")
                      (VStr "Unknown") (VStr "1") (VStr "Tole 1")
                      (VStr "2024-06-01T00:00:00.000Z") (VStr "2024-06-15T08:30:00.000Z")));
               Hooks.isInvalidated := false |}
  /\ Hooks.useDeletePatient "7" cache !! Hooks.patientKeys.detail "7" = None
  /\ Hooks.useDeletePatient "7" cache !! Hooks.patientKeys.lists = Some (stale listed).
Proof.
  intros rt listed cache created edit.
  destruct (mutations_keep_cache_consistent cache) as (C & _ & U & D).
  split; [|split; [|split]].
  - rewrite (useCreatePatient_resolved rt created cache (VObj []) eq_refl).
    apply (C _ Hooks.patientKeys.lists listed); reflexivity.
  - apply (U rt "7" edit (Sample.cached "7")). reflexivity.
  - apply (D "7").
  - apply (proj2 (D "7") Hooks.patientKeys.lists listed); reflexivity.
Defined.

(** * Further properties *)

(** ** Translation registries *)

Lemma own_elem_of k v props : own k props = Some v -> (k, v) ∈ props.
Proof.
  induction props as [|[k' v'] rest IH]; simpl; [discriminate|].
  destruct (String.eqb_spec k k') as [->|_].
  - intros [= ->]. left.
  - intros H. right. now apply IH.
Qed.



(** X2.  The encoders do not see the case of a name: two names with the
    same lower-case form get the same code from each of them. *)
Theorem encoders_case_insensitive a b :
  toLowerCase a = toLowerCase b ->
  Store.getRelationshipId a = Store.getRelationshipId b
  /\ Store.getDistrictId a = Store.getDistrictId b
  /\ Store.getVdcId a = Store.getVdcId b
  /\ Hooks.getRelationId a = Hooks.getRelationId b
  /\ Hooks.getDistrictId a = Hooks.getDistrictId b
  /\ Hooks.getVdcId a = Hooks.getVdcId b.
Proof.
  intros E.
  unfold Store.getRelationshipId, Store.getDistrictId, Store.getVdcId,
         Hooks.getRelationId, Hooks.getDistrictId, Hooks.getVdcId.
  rewrite E. repeat split; reflexivity.
Qed.

Lemma encoders_case_insensitive_witness :
  Store.getDistrictId "KathMandu" = Store.getDistrictId "kathmandu"
  /\ Hooks.getRelationId "SIBLING" = Hooks.getRelationId "Sibling".
Proof.
  split.
  - apply (encoders_case_insensitive "KathMandu" "kathmandu"). reflexivity.
  - apply (encoders_case_insensitive "SIBLING" "Sibling"). reflexivity.
Defined.

(** X3.  Whatever the name, an encoder returns a truthy value: never
    [undefined], [null] or the empty string. *)
Theorem encoders_never_falsy name :
  Forall (fun code => truthy code = true /\ code <> VUndefined /\ code <> VNull
                      /\ code <> VStr "")
         [ Store.getRelationshipId name; Store.getDistrictId name; Store.getVdcId name;
           Hooks.getRelationId name; Hooks.getDistrictId name; Hooks.getVdcId name ].
Proof.
  destruct (encoders_truthy name) as (T1 & T2 & T3 & T4 & T5 & T6).
  assert (F : forall v, truthy v = true ->
                        truthy v = true /\ v <> VUndefined /\ v <> VNull /\ v <> VStr "").
  { intros v T. repeat split; [exact T| | |]; intros ->; discriminate T. }
  repeat constructor; apply F; assumption.
Qed.

Section RoundTrip.

Variable rt : Runtime.

Lemma encode_from_table props fallback name :
  toLowerCase name <> "constructor" -> toLowerCase name <> "__proto__" ->
  encode props fallback name = VStr fallback
  \/ exists v, (toLowerCase name, v) ∈ props /\ encode props fallback name = v ||| VStr fallback.
Proof.
  intros Hc Hp. destruct (own (toLowerCase name) props) as [v|] eqn:O.
  - right. exists v. split; [now apply own_elem_of|].
    unfold encode, get. now rewrite O.
  - left. now apply encode_unknown.
Qed.

(** X4.  On the cache path a relationship or district code survives the
    round trip through its display name: encoding a name, decoding the code
    and encoding the decoded name gives the first code again, although the
    decoded name may be another name of the same code. *)
Theorem relation_district_round_trip name :
  ordinaryName name ->
  (exists code shown,
      Hooks.getRelationId name = VStr code
      /\ Hooks.getRelationshipName rt (VStr code) = Normal (VStr shown)
      /\ Hooks.getRelationId shown = VStr code)
  /\ (exists code shown,
         Hooks.getDistrictId name = VStr code
         /\ Hooks.getDistrictName rt (VStr code) = Normal (VStr shown)
         /\ Hooks.getDistrictId shown = VStr code).
Proof.
  intros [Hc Hp]. split.
  - destruct (encode_from_table (entries Hooks.relationMap) "9" name Hc Hp)
      as [E|(v & Hin & E)]; change (encode (entries Hooks.relationMap) "9" name)
                              with (Hooks.getRelationId name) in E; rewrite E.
    + exists "9", "relative". (split; [|split]); reflexivity.
    + simpl in Hin.
      repeat (apply elem_of_cons in Hin as [[= _ ->]|Hin];
              [eexists _, _; (split; [|split]); reflexivity|]).
      apply elem_of_nil in Hin. destruct Hin.
  - destruct (encode_from_table (entries Hooks.districtMap) "45" name Hc Hp)
      as [E|(v & Hin & E)]; change (encode (entries Hooks.districtMap) "45" name)
                              with (Hooks.getDistrictId name) in E; rewrite E.
    + exists "45", "Kathmandu". (split; [|split]); reflexivity.
    + simpl in Hin.
      repeat (apply elem_of_cons in Hin as [[= _ ->]|Hin];
              [eexists _, _; (split; [|split]); reflexivity|]).
      apply elem_of_nil in Hin. destruct Hin.
Qed.

End RoundTrip.

Lemma relation_district_round_trip_witness :
  let rt := Sample.resolves VNull in
  exists code shown,
    Hooks.getRelationId "Other" = VStr code
    /\ Hooks.getRelationshipName rt (VStr code) = Normal (VStr shown)
    /\ Hooks.getRelationId shown = VStr code.
Proof.
  intros rt.
  apply (relation_district_round_trip rt "Other"). split; discriminate.
Defined.

(** The municipality registry does not have this property: the display
    name of "1148" is encoded as the default "1147". *)
Example vdc_round_trip_fails :
  Hooks.getVdcId "municipality_b" = VStr "1148"
  /\ Hooks.getVdcName (Sample.resolves VNull) (VStr "1148") = Normal (VStr "Municipality B")
  /\ Hooks.getVdcId "Municipality B" = VStr "1147".
Proof. repeat split; reflexivity. Qed.

(** ** Entity transformer *)

Section TransformerFurther.

Variable rt : Runtime.

Lemma truthy_not_nullish v : truthy v = true -> nullish v = false.
Proof. destruct v; simpl; congruence. Qed.

Lemma or_not_nullish a b : nullish b = false -> nullish (a ||| b) = false.
Proof.
  intros H. unfold or_. destruct (truthy a) eqn:T; [now apply truthy_not_nullish|exact H].
Qed.

Lemma transform_fields_defined apiPatient p :
  Store.transformPatientData rt apiPatient = Normal p ->
  Forall (fun v => nullish v = false) (fieldsOf p) /\ truthy (Store.id p) = true.
Proof.
  unfold Store.transformPatientData, getE. intros H.
  destruct (nullish apiPatient); [discriminate H|]. simpl in H.
  destruct (Store.gender_lower_trim apiPatient); [|discriminate H].
  destruct (toString_ rt (_ ||| VStr "undefined")); [|discriminate H].
  destruct (toString_ rt (_ ||| VStr "A")); [|discriminate H].
  simpl in H. injection H as <-. split.
  - unfold fieldsOf. simpl.
    repeat constructor; repeat (apply or_not_nullish); try reflexivity.
    now destruct (strictEquals _ _).
  - simpl. now apply or_truthy_r.
Qed.

(** X5.  [transformPatientData] completes on every record that is neither
    [null] nor [undefined] and whose gender, district name and municipality
    name are strings or are missing, and no field of the patient it returns
    is [null] or [undefined]: every missing field of the record has been
    given its default.  The [id] is moreover truthy.  On [null] and on
    [undefined] the function raises. *)
Theorem transform_defaults apiPatient :
  (nullish apiPatient = false ->
   stringOrMissing (get apiPatient "gender") ->
   stringOrMissing (get apiPatient "districtname") ->
   stringOrMissing (get apiPatient "vdcname") ->
   exists p, Store.transformPatientData rt apiPatient = Normal p
             /\ Forall (fun v => nullish v = false) (fieldsOf p)
             /\ truthy (Store.id p) = true)
  /\ (nullish apiPatient = true ->
      exists e, Store.transformPatientData rt apiPatient = Throw e).
Proof.
  split.
  - intros Hn Hg Hd Hv. destruct (transform_completes rt apiPatient Hn Hg Hd Hv) as [p Hp].
    exists p. split; [exact Hp|]. exact (transform_fields_defined apiPatient p Hp).
  - intros Hn. unfold Store.transformPatientData, getE. rewrite Hn. simpl. eauto.
Qed.

(** X6.  On a date of birth the [Date] constructor accepts, the two
    [calculateAge] functions return the same text: the difference of the
    years, less one when this year's birthday is still to come. *)
Theorem calculateAge_agree dob dobbs birth :
  truthy dob = true ->
  newDate rt dob = Normal (Some birth) ->
  Store.calculateAge rt dob
  = pretty (fullYear (now rt) - fullYear birth
            - (if birthdayPending (now rt) birth then 1 else 0))
  /\ Hooks.calculateAge rt dob dobbs = Store.calculateAge rt dob.
Proof.
  intros T H. rewrite (calculateAge_valid rt dob birth T H). split.
  - unfold birthdayPending. destruct (_ || _); f_equal; lia.
  - unfold Hooks.calculateAge. rewrite T. simpl. rewrite H. simpl.
    replace (month (now rt) - month birth <? 0) with (month (now rt) <? month birth)
      by (destruct (Z.ltb_spec (month (now rt)) (month birth));
          destruct (Z.ltb_spec (month (now rt) - month birth) 0); lia || reflexivity).
    replace (month (now rt) - month birth =? 0) with (month (now rt) =? month birth)
      by (destruct (Z.eqb_spec (month (now rt)) (month birth));
          destruct (Z.eqb_spec (month (now rt) - month birth) 0); lia || reflexivity).
    now destruct (_ || _).
Qed.

Lemma dashesToSlashes_no_dash s : occurs "-" (dashesToSlashes s) = false.
Proof.
  unfold dashesToSlashes.
  induction s as [|c rest IH]; cbn [mapString occurs]; [reflexivity|].
  rewrite IH, orb_false_r.
  destruct (Ascii.eqb_spec c "-") as [->|N]; [reflexivity|].
  destruct (Ascii.eqb_spec "-" c) as [E|_]; [congruence|reflexivity].
Qed.

Lemma beforeT_no_T s : occurs "T" (beforeT s) = false.
Proof.
  induction s as [|c rest IH]; cbn [beforeT occurs]; [reflexivity|].
  destruct (Ascii.eqb_spec c "T") as [->|N]; cbn [occurs]; [reflexivity|].
  rewrite IH, orb_false_r.
  destruct (Ascii.eqb_spec "T" c) as [E|_]; [congruence|reflexivity].
Qed.

Lemma dashesToSlashes_keeps_no_T s :
  occurs "T" s = false -> occurs "T" (dashesToSlashes s) = false.
Proof.
  unfold dashesToSlashes.
  induction s as [|c rest IH]; cbn [mapString occurs]; [reflexivity|].
  intros H. apply orb_false_iff in H as [Hc Hr].
  rewrite (IH Hr), orb_false_r.
  destruct (Ascii.eqb_spec c "-"); [reflexivity|exact Hc].
Qed.

Lemma day_text_clean iso :
  occurs "-" (dashesToSlashes (beforeT iso)) = false
  /\ occurs "T" (dashesToSlashes (beforeT iso)) = false.
Proof.
  split; [apply dashesToSlashes_no_dash|].
  apply dashesToSlashes_keeps_no_T, beforeT_no_T.
Qed.

(** X7.  Whatever it is given, [formatDate] returns a text with no dash
    and no time part; and when the value is falsy, is not a date the
    constructor can parse, or makes the constructor raise, the text is
    today's date, the one returned for a missing value. *)
Theorem formatDate_shape dateStr :
  occurs "-" (Store.formatDate rt dateStr) = false
  /\ occurs "T" (Store.formatDate rt dateStr) = false
  /\ (truthy dateStr = false \/ newDate rt dateStr = Normal None
      \/ (exists e, newDate rt dateStr = Throw e) ->
      Store.formatDate rt dateStr = Store.formatDate rt VUndefined).
Proof.
  assert (C : occurs "-" (Store.formatDate rt dateStr) = false
              /\ occurs "T" (Store.formatDate rt dateStr) = false).
  { unfold Store.formatDate. destruct (negb (truthy dateStr)); [apply day_text_clean|].
    destruct (newDate rt dateStr) as [[d|]|e]; simpl; apply day_text_clean. }
  destruct C as [C1 C2]. split; [exact C1|]. split; [exact C2|].
  unfold Store.formatDate. simpl.
  intros [T|[I|[e Th]]].
  - now rewrite T.
  - destruct (negb (truthy dateStr)); [reflexivity|]. now rewrite I.
  - destruct (negb (truthy dateStr)); [reflexivity|]. now rewrite Th.
Qed.

End TransformerFurther.

Lemma transform_defaults_witness :
  let rt := Sample.resolves VNull in
  (exists p, Store.transformPatientData rt (VObj [("lname", VStr "Rai"); ("gender", VNull)])
             = Normal p
             /\ Forall (fun v => nullish v = false) (fieldsOf p)
             /\ truthy (Store.id p) = true)
  /\ (exists e, Store.transformPatientData rt VNull = Throw e).
Proof.
  intros rt. split.
  - apply (transform_defaults rt); [reflexivity|left; reflexivity..].
  - apply (transform_defaults rt). reflexivity.
Defined.

Lemma calculateAge_agree_witness :
  let rt := Sample.resolves VNull in
  Store.calculateAge rt (VStr "1990-01-01") = "34"
  /\ Hooks.calculateAge rt (VStr "1990-01-01") VUndefined = Store.calculateAge rt (VStr "1990-01-01").
Proof.
  intros rt.
  exact (calculateAge_agree rt (VStr "1990-01-01") VUndefined
           (mkDate 1990 0 1 "1990-01-01T00:00:00.000Z") eq_refl eq_refl).
Defined.

Lemma formatDate_shape_witness :
  let rt := Sample.resolves VNull in
  Store.formatDate rt (VStr "yesterday") = "2024/06/15"
  /\ Store.formatDate rt (VStr "1990-01-01") = "1990/01/01".
Proof.
  intros rt. split; [|reflexivity].
  destruct (formatDate_shape rt (VStr "yesterday")) as (_ & _ & F).
  rewrite F; [reflexivity|]. right. left. reflexivity.
Defined.

(** ** Synchronisation store *)

Section StoreFurther.

Variable rt : Runtime.

(** X8.  Every fetch ends with [loading] false and the success message
    untouched.  A rejected fetch keeps the patient list and stores its
    rejection value, which is always truthy, as the error; a fulfilled one
    stores its payload as the list and clears the error. *)
Theorem fetch_settles state :
  Store.loading (Store.dispatch_fetchPatients rt state) = false
  /\ Store.successMessage (Store.dispatch_fetchPatients rt state) = Store.successMessage state
  /\ (forall v, Store.fetchPatients rt = Store.RejectWithValue v ->
                Store.patients (Store.dispatch_fetchPatients rt state) = Store.patients state
                /\ Store.error (Store.dispatch_fetchPatients rt state) = v
                /\ truthy v = true)
  /\ (forall payload, Store.fetchPatients rt = Store.Fulfill payload ->
                      Store.patients (Store.dispatch_fetchPatients rt state) = payload
                      /\ Store.error (Store.dispatch_fetchPatients rt state) = VNull).
Proof.
  split; [|split; [|split]].
  - unfold Store.dispatch_fetchPatients. now destruct (Store.fetchPatients rt).
  - apply fetch_keeps_successMessage.
  - intros v H. destruct (fetch_rejected_frame rt v state H) as (P & _ & E).
    split; [exact P|]. split; [exact E|]. exact (fetch_rejection_truthy rt v H).
  - intros payload H. unfold Store.dispatch_fetchPatients. rewrite H. simpl. auto.
Qed.

(** X9.  No create changes the patient list, and every create ends with
    [loading] false.  A rejected create has a truthy error and no success
    message; when the service answers with a type other than "success" and
    a truthy message, that message is the error. *)
Theorem create_settles patientData state :
  Store.patients (Store.dispatch_createPatient rt patientData state) = Store.patients state
  /\ Store.loading (Store.dispatch_createPatient rt patientData state) = false
  /\ (forall v, Store.createPatient rt patientData = Store.RejectWithValue v ->
                Store.error (Store.dispatch_createPatient rt patientData state) = v
                /\ truthy v = true
                /\ Store.successMessage (Store.dispatch_createPatient rt patientData state)
                   = VNull)
  /\ (forall data,
        post rt addPatient (Store.apiData patientData) = Normal data ->
        nullish data = false ->
        strictEquals (get data "type") (VStr "success") = false ->
        truthy (get data "message") = true ->
        Store.error (Store.dispatch_createPatient rt patientData state) = get data "message").
Proof.
  unfold Store.dispatch_createPatient.
  split; [|split; [|split]].
  - now destruct (Store.createPatient rt patientData).
  - now destruct (Store.createPatient rt patientData).
  - intros v H. rewrite H. simpl. split; [reflexivity|].
    split; [exact (create_rejection_truthy rt patientData v H)|reflexivity].
  - intros data Hpost Hd Htype Hmsg.
    rewrite (create_non_success_message rt patientData data Hpost Hd Htype).
    simpl. unfold or_. now rewrite Hmsg.
Qed.

End StoreFurther.

Lemma fetch_settles_witness :
  let rt := Sample.rejects (VObj [("response", VObj [("data", VObj [("message", VStr "Token expired")])]);
                                  ("message", VStr "Request failed with status code 401")]) in
  let state := {| Store.patients := [Sample.patient "1" "Sita"]; Store.loading := false;
                  Store.error := VNull; Store.successMessage := VNull |} in
  Store.patients (Store.dispatch_fetchPatients rt state) = [Sample.patient "1" "Sita"]
  /\ Store.error (Store.dispatch_fetchPatients rt state) = VStr "Token expired".
Proof.
  intros rt state.
  destruct (fetch_settles rt state) as (_ & _ & R & _).
  destruct (R (VStr "Token expired") eq_refl) as (P & E & _). split; [exact P|exact E].
Defined.

Lemma create_settles_witness :
  let data := Sample.envelope "error" "Mobile number already registered" VNull in
  let rt := Sample.resolves data in
  let state := {| Store.patients := [Sample.patient "1" "Sita"]; Store.loading := false;
                  Store.error := VNull; Store.successMessage := VStr "old" |} in
  let state' := Store.dispatch_createPatient rt (Sample.form "female" "sister" "Kathmandu") state in
  Store.error state' = VStr "Mobile number already registered"
  /\ Store.successMessage state' = VNull.
Proof.
  intros data rt state state'.
  destruct (create_settles rt (Sample.form "female" "sister" "Kathmandu") state)
    as (_ & _ & R & M).
  split.
  - exact (M data eq_refl eq_refl eq_refl eq_refl).
  - exact (proj2 (proj2 (R (VStr "Mobile number already registered") eq_refl))).
Defined.

Section UpdateFurther.

Variable payload : Store.Patient.

Lemma findIndex_from_spec (l : list Store.Patient) : forall i,
  (Store.findIndex_from (sameId payload) i l = -1
   /\ forall p, p ∈ l -> sameId payload p = false)
  \/ (exists n p, Store.findIndex_from (sameId payload) i l = i + Z.of_nat n
                  /\ l !! n = Some p /\ sameId payload p = true
                  /\ forall j q, (j < n)%nat -> l !! j = Some q -> sameId payload q = false).
Proof.
  induction l as [|x rest IH]; intros i; simpl.
  - left. split; [reflexivity|]. intros p Hp. now apply elem_of_nil in Hp.
  - destruct (sameId payload x) eqn:Hx.
    + right. exists 0%nat, x. split; [lia|]. split; [reflexivity|]. split; [exact Hx|].
      intros j q Hj. lia.
    + destruct (IH (i + 1)) as [[E H]|(n & p & E & Hn & Hp & Hb)].
      * left. split; [exact E|]. intros p Hp.
        apply elem_of_cons in Hp as [->|Hp]; [exact Hx|now apply H].
      * right. exists (S n), p. split; [lia|]. split; [exact Hn|]. split; [exact Hp|].
        intros [|j] q Hj Hq; [now injection Hq as <-|]. apply (Hb j q); [lia|exact Hq].
Qed.

Lemma update_found state n p :
  Store.patients state !! n = Some p -> sameId payload p = true ->
  (forall j q, (j < n)%nat -> Store.patients state !! j = Some q -> sameId payload q = false) ->
  Store.reducer state (Store.updatePatient payload)
  = {| Store.patients := <[n := payload]> (Store.patients state);
       Store.loading := Store.loading state; Store.error := Store.error state;
       Store.successMessage := Store.successMessage state |}.
Proof.
  intros Hn Hp Hb. simpl. unfold Store.findIndex.
  change (fun p => strictEquals (Store.id p) (Store.id payload)) with (sameId payload).
  rewrite (findIndex_from_first payload _ 0 n p Hn Hp Hb).
  replace (negb (0 + Z.of_nat n =? -1)) with true
    by (symmetry; apply negb_true_iff, Z.eqb_neq; lia).
  now replace (Z.to_nat (0 + Z.of_nat n)) with n by lia.
Qed.

Lemma update_not_found state :
  (forall p, p ∈ Store.patients state -> sameId payload p = false) ->
  Store.reducer state (Store.updatePatient payload) = state.
Proof.
  intros H. simpl. unfold Store.findIndex.
  change (fun p => strictEquals (Store.id p) (Store.id payload)) with (sameId payload).
  now rewrite (findIndex_from_none payload _ 0 H).
Qed.

(** A value identical to some value is identical to itself. *)
Lemma strictEquals_self a b : strictEquals a b = true -> strictEquals b b = true.
Proof.
  intros H.
  destruct b as [| |x|z|s|l|o|n]; try (destruct a; discriminate H); simpl.
  - reflexivity.
  - reflexivity.
  - now destruct x.
  - apply Z.eqb_refl.
  - apply String.eqb_refl.
  - destruct n; simpl; [reflexivity|apply String.eqb_refl].
Qed.

(** X10.  [updatePatient] is idempotent: dispatching the same payload a
    second time changes nothing more. *)
Theorem updatePatient_idempotent state :
  Store.reducer (Store.reducer state (Store.updatePatient payload)) (Store.updatePatient payload)
  = Store.reducer state (Store.updatePatient payload).
Proof.
  destruct (findIndex_from_spec (Store.patients state) 0) as [[_ H]|(n & p & _ & Hn & Hp & Hb)].
  - rewrite (update_not_found state H). exact (update_not_found state H).
  - rewrite (update_found state n p Hn Hp Hb).
    assert (Hlen : (n < length (Store.patients state))%nat) by now apply lookup_lt_Some in Hn.
    rewrite (update_found _ n payload); simpl.
    + now rewrite list_insert_insert_eq.
    + now apply list_lookup_insert_eq.
    + exact (strictEquals_self _ _ Hp).
    + intros j q Hj Hq. rewrite list_lookup_insert_ne in Hq by lia. exact (Hb j q Hj Hq).
Qed.

Lemma find_none (l : list Store.Patient) :
  (forall p, p ∈ l -> sameId payload p = false) -> List.find (sameId payload) l = None.
Proof.
  induction l as [|x rest IH]; intros H; simpl; [reflexivity|].
  rewrite (H x) by left. apply IH. intros p Hp. apply H. now right.
Qed.

Lemma find_insert_first (l : list Store.Patient) : forall n p,
  l !! n = Some p -> sameId payload payload = true ->
  (forall j q, (j < n)%nat -> l !! j = Some q -> sameId payload q = false) ->
  List.find (sameId payload) (<[n := payload]> l) = Some payload.
Proof.
  induction l as [|x rest IH]; intros n p Hn Hself Hb; [discriminate Hn|].
  destruct n as [|n]; simpl.
  - now rewrite Hself.
  - rewrite (Hb 0%nat x) by (lia || reflexivity).
    apply (IH n p Hn Hself). intros j q Hj Hq. apply (Hb (S j) q); [lia|exact Hq].
Qed.

(** X11.  After [updatePatient], looking the payload's identifier up with
    [selectPatientById] gives the payload itself when some patient of the
    list had that identifier, and nothing when none had: the update never
    inserts. *)
Theorem select_after_update state :
  let after := Store.mkRoot (Store.reducer state (Store.updatePatient payload)) in
  ((exists p, p ∈ Store.patients state /\ sameId payload p = true) ->
   Store.selectPatientById after (Store.id payload) = Some payload)
  /\ ((forall p, p ∈ Store.patients state -> sameId payload p = false) ->
      Store.selectPatientById after (Store.id payload) = None).
Proof.
  intros after. subst after. unfold Store.selectPatientById. cbn [Store.root_patients].
  change (fun patient => strictEquals (Store.id patient) (Store.id payload))
    with (sameId payload).
  split.
  - intros (p0 & Hin & Hp0).
    destruct (findIndex_from_spec (Store.patients state) 0) as [[_ H]|(n & p & _ & Hn & Hp & Hb)].
    + rewrite (H p0 Hin) in Hp0. discriminate Hp0.
    + rewrite (update_found state n p Hn Hp Hb). cbn [Store.patients].
      exact (find_insert_first _ n p Hn (strictEquals_self _ _ Hp) Hb).
  - intros H. rewrite (update_not_found state H). now apply find_none.
Qed.

End UpdateFurther.

Lemma select_after_update_witness :
  let state := {| Store.patients := [Sample.patient "1" "Sita"; Sample.patient "2" "Hari"];
                  Store.loading := false; Store.error := VNull;
                  Store.successMessage := VNull |} in
  Store.selectPatientById
    (Store.mkRoot (Store.reducer state (Store.updatePatient (Sample.patient "2" "Maya"))))
    (VStr "2") = Some (Sample.patient "2" "Maya")
  /\ Store.selectPatientById
       (Store.mkRoot (Store.reducer state (Store.updatePatient (Sample.patient "3" "Maya"))))
       (VStr "3") = None.
Proof.
  intros state. split.
  - apply (select_after_update (Sample.patient "2" "Maya") state).
    exists (Sample.patient "2" "Hari"). split; [|reflexivity]. right. left.
  - apply (select_after_update (Sample.patient "3" "Maya") state).
    intros p Hp. repeat (apply elem_of_cons in Hp as [->|Hp]; [reflexivity|]).
    apply elem_of_nil in Hp. destruct Hp.
Defined.

(** ** Cache layer *)

Section CacheFurther.

Import Hooks.

Implicit Types (cache : queryCache) (key : queryKey) (q : query).

Lemma matches_prefix partial key : matches partial (partial ++ key) = true.
Proof. apply bool_decide_eq_true. now exists key. Qed.

Lemma detail_matches_detail a b :
  matches (patientKeys.detail a) (patientKeys.detail b) = true -> a = b.
Proof.
  intros H. apply bool_decide_eq_true in H.
  apply prefix_cons_inv_2, prefix_cons_inv_2, prefix_cons_inv_1 in H. congruence.
Qed.

Lemma detail_other a b : a <> b -> matches (patientKeys.detail a) (patientKeys.detail b) = false.
Proof.
  intros N. destruct (matches _ _) eqn:M; [|reflexivity].
  now apply detail_matches_detail in M.
Qed.

(** X12.  The key factory is a hierarchy: distinct identifiers and distinct
    filters give distinct keys, no detail key is a list key, every key lies
    under [all], a detail key lies under [details] and not under [lists],
    and a filtered list key lies under [lists] and not under [details]. *)
Theorem patientKeys_hierarchy :
  (forall a b, patientKeys.detail a = patientKeys.detail b -> a = b)
  /\ (forall f g, patientKeys.list f = patientKeys.list g -> f = g)
  /\ (forall id f, patientKeys.detail id <> patientKeys.list f
                   /\ patientKeys.detail id <> patientKeys.lists)
  /\ (forall id, matches patientKeys.all (patientKeys.detail id) = true
                 /\ matches patientKeys.details (patientKeys.detail id) = true
                 /\ matches patientKeys.lists (patientKeys.detail id) = false)
  /\ (forall f, matches patientKeys.all (patientKeys.list f) = true
                /\ matches patientKeys.lists (patientKeys.list f) = true
                /\ matches patientKeys.details (patientKeys.list f) = false).
Proof.
  split; [intros a b [= ->]; reflexivity|].
  split; [intros f g [= ->]; reflexivity|].
  split; [intros id f; split; discriminate|].
  split.
  - intros id. split; [apply (matches_prefix patientKeys.all)|].
    split; [apply (matches_prefix patientKeys.details)|apply detail_not_under_lists].
  - intros f. split; [apply (matches_prefix patientKeys.all)|].
    split; [apply (matches_prefix patientKeys.lists)|].
    apply bool_decide_eq_false. intros H.
    apply prefix_cons_inv_2, prefix_cons_inv_1 in H. discriminate H.
Qed.

Lemma patientKeys_hierarchy_witness :
  patientKeys.detail "7" <> patientKeys.detail "8"
  /\ matches patientKeys.all (patientKeys.list "recent") = true.
Proof.
  destruct patientKeys_hierarchy as (I & _ & _ & _ & L). split.
  - intros E. apply I in E. discriminate E.
  - apply L.
Defined.

Lemma lookup_invalidate_lists_detail cache id :
  invalidateQueries patientKeys.lists cache !! patientKeys.detail id
  = cache !! patientKeys.detail id.
Proof.
  rewrite lookup_invalidateQueries, detail_not_under_lists.
  now destruct (cache !! patientKeys.detail id).
Qed.

(** X13.  A mutation leaves the detail entries of the other patients as
    they are: a create touches no detail entry, and an update or a delete
    of one patient touches no detail entry of a patient with another
    identifier. *)
Theorem mutations_spare_other_details cache id other :
  id <> other ->
  (forall response,
      create_onSuccess response cache !! patientKeys.detail other
      = cache !! patientKeys.detail other)
  /\ (forall updatedPatient,
         p_id updatedPatient = id ->
         update_onSuccess updatedPatient cache !! patientKeys.detail other
         = cache !! patientKeys.detail other)
  /\ delete_onSuccess id cache !! patientKeys.detail other
     = cache !! patientKeys.detail other.
Proof.
  intros N. split; [|split].
  - intros response. apply lookup_invalidate_lists_detail.
  - intros updatedPatient E. unfold update_onSuccess, setQueryData.
    rewrite lookup_invalidate_lists_detail, lookup_insert_ne; [reflexivity|].
    rewrite E. intros [= K]. contradiction.
  - unfold delete_onSuccess.
    rewrite lookup_invalidate_lists_detail.
    apply lookup_removeQueries_other. now apply detail_other.
Qed.

Lemma getQueryData_after_delete id cache :
  getQueryData_Patient (patientKeys.detail id) (delete_onSuccess id cache) = None.
Proof.
  unfold getQueryData_Patient, delete_onSuccess.
  rewrite lookup_invalidate_lists_detail,
    (lookup_removeQueries_matching _ _ _ (matches_refl _)).
  reflexivity.
Qed.

Lemma stale_stale q : stale (stale q) = stale q.
Proof. reflexivity. Qed.

(** X14.  Deleting is idempotent, and nothing brings a deleted patient
    back: an update of the deleted identifier fails with "Patient not
    found" and leaves the cache as the delete left it. *)
Theorem delete_then_update rt id d cache :
  useDeletePatient id (useDeletePatient id cache) = useDeletePatient id cache
  /\ update_mutationFn rt id d (useDeletePatient id cache)
     = Throw (newError "Patient not found")
  /\ useUpdatePatient rt id d (useDeletePatient id cache) = useDeletePatient id cache.
Proof.
  unfold useDeletePatient, delete_mutationFn. split; [|split].
  - apply map_eq. intros key. unfold delete_onSuccess.
    rewrite !lookup_invalidateQueries.
    destruct (matches (patientKeys.detail id) key) eqn:M.
    + now rewrite !(lookup_removeQueries_matching _ _ _ M).
    + rewrite (lookup_removeQueries_other _ _ _ M), lookup_invalidateQueries,
        (lookup_removeQueries_other _ _ _ M).
      destruct (cache !! key) as [q|]; [|reflexivity]. simpl.
      now destruct (matches patientKeys.lists key).
  - unfold update_mutationFn. now rewrite getQueryData_after_delete.
  - apply useUpdatePatient_not_found, getQueryData_after_delete.
Qed.

Lemma getQueryData_invalidate partial cache key :
  getQueryData_Patient key (invalidateQueries partial cache) = getQueryData_Patient key cache.
Proof.
  unfold getQueryData_Patient. rewrite lookup_invalidateQueries.
  destruct (cache !! key) as [q|]; [|reflexivity]. simpl.
  now destruct (matches partial key).
Qed.

Lemma getQueryData_remove partial cache key p :
  getQueryData_Patient key (removeQueries partial cache) = Some p ->
  getQueryData_Patient key cache = Some p.
Proof.
  unfold getQueryData_Patient. destruct (matches partial key) eqn:M.
  - now rewrite (lookup_removeQueries_matching _ _ _ M).
  - now rewrite (lookup_removeQueries_other _ _ _ M).
Qed.

(** X15.  The three mutations keep the cache well keyed: if every patient
    cached under a detail key carries the identifier of its key, the same
    holds after a create, after an update and after a delete. *)
Theorem mutations_keep_well_keyed rt cache id d created :
  wellKeyed cache ->
  wellKeyed (useCreatePatient rt created cache)
  /\ wellKeyed (useUpdatePatient rt id d cache)
  /\ wellKeyed (useDeletePatient id cache).
Proof.
  intros W. split; [|split].
  - unfold useCreatePatient. destruct (create_mutationFn rt created); [|exact W].
    intros k p. unfold create_onSuccess. rewrite getQueryData_invalidate. apply W.
  - destruct (getQueryData_Patient (patientKeys.detail id) cache) as [existingPatient|] eqn:G.
    + rewrite (useUpdatePatient_found _ _ _ _ _ G).
      intros k p. unfold update_onSuccess, setQueryData.
      rewrite getQueryData_invalidate. unfold getQueryData_Patient.
      destruct (decide (patientKeys.detail (p_id (merge rt existingPatient d))
                        = patientKeys.detail k)) as [E|N].
      * rewrite E, lookup_insert_eq. simpl. intros [= <-].
        now injection E.
      * rewrite lookup_insert_ne by exact N. apply W.
    + now rewrite (useUpdatePatient_not_found _ _ _ _ G).
  - unfold useDeletePatient, delete_mutationFn. intros k p. unfold delete_onSuccess.
    rewrite getQueryData_invalidate. intros H. apply W.
    exact (getQueryData_remove _ _ _ _ H).
Qed.

End CacheFurther.

Lemma mutations_spare_other_details_witness :
  let cache : gmap (list Hooks.segment) Hooks.query :=
    <[Hooks.patientKeys.detail "8" := fresh (Sample.cached "8")]>
      (<[Hooks.patientKeys.detail "7" := fresh (Sample.cached "7")]> ∅) in
  Hooks.delete_onSuccess "7" cache !! Hooks.patientKeys.detail "8"
  = Some (fresh (Sample.cached "8")).
Proof.
  intros cache.
  destruct (mutations_spare_other_details cache "7" "8") as (_ & _ & D); [discriminate|].
  rewrite D. reflexivity.
Defined.

Lemma mutations_keep_well_keyed_witness :
  let rt := Sample.resolves (VObj []) in
  let cache : gmap (list Hooks.segment) Hooks.query :=
    <[Hooks.patientKeys.detail "7" := fresh (Sample.cached "7")]> ∅ in
  let edit := Hooks.mkPartial None (Some "Thapa") None None None None None None None None
                              None None None in
  wellKeyed (Hooks.useUpdatePatient rt "7" edit cache).
Proof.
  intros rt cache edit.
  refine (proj1 (proj2 (mutations_keep_well_keyed rt cache "7" edit
                          (Hooks.mkData "" "" "" "" "" "" "" "" "" "" "" "" "") _))).
  intros id p. unfold Hooks.getQueryData_Patient.
  destruct (decide (Hooks.patientKeys.detail "7" = Hooks.patientKeys.detail id)) as [E|N].
  - rewrite <- E. unfold cache. rewrite lookup_insert_eq. simpl. intros [= <-].
    now injection E.
  - unfold cache. rewrite lookup_insert_ne by exact N. rewrite lookup_empty. discriminate.
Defined.

(** ** Outbound payload of the cache path *)

Section Outbound.

Variable rt : Runtime.

Lemma digitsOnly_allDigits s : allDigits (digitsOnly s) = true.
Proof.
  induction s as [|c rest IH]; cbn [digitsOnly allDigits]; [reflexivity|].
  destruct (isDigit c) eqn:D; [|exact IH]. cbn [allDigits]. now rewrite D.
Qed.

Lemma digitsOnly_length s : (String.length (digitsOnly s) <= String.length s)%nat.
Proof.
  induction s as [|c rest IH]; cbn [digitsOnly String.length]; [lia|].
  destruct (isDigit c); cbn [String.length]; lia.
Qed.

Lemma digitsOnly_id s : allDigits s = true -> digitsOnly s = s.
Proof.
  induction s as [|c rest IH]; cbn [digitsOnly allDigits]; [reflexivity|].
  intros H. apply andb_true_iff in H as [D R]. rewrite D. now rewrite (IH R).
Qed.

Lemma substringFrom_allDigits n : forall s,
  allDigits s = true -> allDigits (substringFrom n s) = true.
Proof.
  induction n as [|n IH]; intros s H; [destruct s; exact H|].
  destruct s as [|c rest]; [reflexivity|]. cbn [substringFrom].
  apply IH. cbn [allDigits] in H. now apply andb_true_iff in H as [_ R].
Qed.

Lemma substringFrom_length n : forall s,
  (String.length (substringFrom n s) <= String.length s)%nat.
Proof.
  induction n as [|n IH]; intros s; [destruct s; cbn; lia|].
  destruct s as [|c rest]; cbn [substringFrom String.length]; [lia|].
  specialize (IH rest). lia.
Qed.

Lemma strip_length (b : bool) n s :
  (String.length (if b then substringFrom n s else s) <= String.length s)%nat.
Proof. destruct b; [apply substringFrom_length|lia]. Qed.

(** X16.  [cleanPhoneNumber] returns decimal digits only, never more
    characters than it was given; a number that is already made of digits
    and starts neither with the country code 977 nor with 0 is returned as
    it is. *)
Theorem cleanPhoneNumber_digits phone :
  allDigits (Hooks.cleanPhoneNumber phone) = true
  /\ (String.length (Hooks.cleanPhoneNumber phone) <= String.length phone)%nat
  /\ (allDigits phone = true -> startsWith "977" phone = false ->
      startsWith "0" phone = false -> Hooks.cleanPhoneNumber phone = phone).
Proof.
  unfold Hooks.cleanPhoneNumber. split; [|split].
  - destruct (String.eqb phone ""); [reflexivity|].
    pose proof (digitsOnly_allDigits phone) as D.
    destruct (startsWith "977" (digitsOnly phone));
      match goal with |- context [startsWith "0" ?t] => destruct (startsWith "0" t) end;
      repeat apply substringFrom_allDigits; exact D.
  - destruct (String.eqb phone ""); [cbn; lia|]. cbv zeta.
    etransitivity; [apply strip_length|].
    etransitivity; [apply strip_length|]. apply digitsOnly_length.
  - intros D N9 N0. destruct (String.eqb_spec phone "") as [->|_]; [reflexivity|].
    rewrite (digitsOnly_id phone D), N9, N0. reflexivity.
Qed.

Lemma digitsOnly_handlePhoneNumberChange s :
  digitsOnly (FormPhoneInput.handlePhoneNumberChange s) = digitsOnly s.
Proof.
  induction s as [|c rest IH]; cbn [FormPhoneInput.handlePhoneNumberChange digitsOnly];
    [reflexivity|].
  destruct (isDigit c) eqn:D; cbn [orb].
  - cbn [digitsOnly]. now rewrite D, IH.
  - destruct (isSpace c || Ascii.eqb c "-"); [|exact IH].
    cbn [digitsOnly]. now rewrite D.
Qed.

Lemma cleanPhoneNumber_of_digits phone :
  Hooks.cleanPhoneNumber phone
  = let cleanNumber := digitsOnly phone in
    let cleanNumber :=
      if startsWith "977" cleanNumber then substringFrom 3 cleanNumber else cleanNumber in
    if startsWith "0" cleanNumber then substringFrom 1 cleanNumber else cleanNumber.
Proof.
  unfold Hooks.cleanPhoneNumber. destruct (String.eqb_spec phone "") as [->|_]; reflexivity.
Qed.

(** X17.  The filtering the phone widget applies while the user types does
    not change what the cache path sends: cleaning the widget's text gives
    the same number as cleaning the raw input. *)
Theorem cleanPhoneNumber_after_widget raw :
  Hooks.cleanPhoneNumber (FormPhoneInput.handlePhoneNumberChange raw)
  = Hooks.cleanPhoneNumber raw.
Proof.
  rewrite !cleanPhoneNumber_of_digits. now rewrite digitsOnly_handlePhoneNumberChange.
Qed.

Lemma table_code_string props fallback name :
  Forall (fun kv => exists code, kv.2 = VStr code /\ code <> "") props ->
  fallback <> "" -> ordinaryName name ->
  exists code, encode props fallback name = VStr code.
Proof.
  intros T F [Hc Hp].
  destruct (encode_from_table props fallback name Hc Hp) as [E|(v & Hin & E)].
  - eauto.
  - rewrite Forall_forall in T. destruct (T _ Hin) as (code & Hv & Hne). simpl in Hv.
    exists code. rewrite E, Hv. unfold or_. simpl.
    destruct (String.eqb_spec code ""); [contradiction|reflexivity].
Qed.

Lemma appendEntries_strings es : forall acc,
  Forall (fun kv => exists s, kv.2 = VStr s) es ->
  Hooks.appendEntries rt es acc = Normal (acc ++ es)%list.
Proof.
  induction es as [|[k v] rest IH]; intros acc H; cbn [Hooks.appendEntries].
  - now rewrite app_nil_r.
  - apply Forall_cons in H as [[s Hs] Hrest]. simpl in Hs. subst v. simpl.
    rewrite (IH _ Hrest). now rewrite <- app_assoc.
Qed.

(** X18.  When the relationship, the district and the municipality of the
    form are ordinary names, the URL-encoded body of a create carries every
    field of [apiData], in its order and with its text, empty fields
    included, and the create posts exactly that. *)
Theorem create_body_complete d :
  ordinaryName (Hooks.relationship d) ->
  ordinaryName (Hooks.district d) ->
  ordinaryName (Hooks.vdcMunicipality d) ->
  Hooks.appendEntries rt (entries (Hooks.apiData d)) [] = Normal (entries (Hooks.apiData d))
  /\ Hooks.create_mutationFn rt d = post rt addPatient (Hooks.apiData d).
Proof.
  intros Hr Hd Hv.
  assert (A : Hooks.appendEntries rt (entries (Hooks.apiData d)) []
              = Normal (entries (Hooks.apiData d))).
  { rewrite appendEntries_strings; [reflexivity|].
    destruct (table_code_string (entries Hooks.relationMap) "9" (Hooks.relationship d))
      as [r Er]; [repeat constructor; eexists; (split; [reflexivity|discriminate])
                 |discriminate|exact Hr|].
    destruct (table_code_string (entries Hooks.districtMap) "45" (Hooks.district d))
      as [dc Ed]; [repeat constructor; eexists; (split; [reflexivity|discriminate])
                  |discriminate|exact Hd|].
    destruct (table_code_string (entries Hooks.vdcMap) "1147" (Hooks.vdcMunicipality d))
      as [vc Ev]; [repeat constructor; eexists; (split; [reflexivity|discriminate])
                  |discriminate|exact Hv|].
    unfold Hooks.apiData, entries.
    change (Hooks.getRelationId (Hooks.relationship d))
      with (encode (entries Hooks.relationMap) "9" (Hooks.relationship d)).
    change (Hooks.getDistrictId (Hooks.district d))
      with (encode (entries Hooks.districtMap) "45" (Hooks.district d)).
    change (Hooks.getVdcId (Hooks.vdcMunicipality d))
      with (encode (entries Hooks.vdcMap) "1147" (Hooks.vdcMunicipality d)).
    rewrite Er, Ed, Ev.
    repeat constructor; simpl; eauto.
    unfold or_. destruct (truthy (VStr (Hooks.year d))); eauto. }
  split; [exact A|]. unfold Hooks.create_mutationFn. rewrite A. reflexivity.
Qed.

End Outbound.

Lemma cleanPhoneNumber_digits_witness :
  Hooks.cleanPhoneNumber "9800000000" = "9800000000"
  /\ Hooks.cleanPhoneNumber "+977 (0)98-000 000" = "98000000".
Proof.
  split; [|reflexivity].
  apply (cleanPhoneNumber_digits "9800000000"); reflexivity.
Defined.

Lemma create_body_complete_witness :
  let rt := Sample.resolves (VObj []) in
  let d := Hooks.mkData "Sita" "Rai" "female" "34" "" "1990/01/01" "" "+977 9800000000"
                        "Cousin" "kathmandu" "vdc_a" "4" "" in
  Hooks.appendEntries rt (entries (Hooks.apiData d)) [] = Normal (entries (Hooks.apiData d))
  /\ get (Hooks.apiData d) "email" = VStr ""
  /\ get (Hooks.apiData d) "agetype" = VStr "Years"
  /\ get (Hooks.apiData d) "mobileno" = VStr "9800000000".
Proof.
  intros rt d. split; [|repeat split; reflexivity].
  apply (create_body_complete rt d); split; discriminate.
Defined.

(** ** The list query of the cache path *)

Section ListQuery.

Variable rt : Runtime.
Variable dateNow : Z.

(** X19.  When the request resolves with a body that holds no array under
    [response.list], the list query returns the empty list instead of
    failing, whatever the [type] of the body; and it does the same for an
    empty array. *)
Theorem usePatients_without_list data :
  post rt getPatients (VObj [("userid", VStr "1000596100"); ("orgid", VStr "614")])
  = Normal data ->
  (forall items, get (get data "response") "list" = VArr items -> items = []) ->
  Hooks.usePatients_queryFn rt dateNow = Normal [].
Proof.
  intros Hpost Hlist. unfold Hooks.usePatients_queryFn. rewrite Hpost. simpl.
  destruct (truthy data && truthy (get data "response")
            && truthy (get (get data "response") "list")); [|reflexivity].
  destruct (get (get data "response") "list") eqn:L; try reflexivity.
  now rewrite (Hlist items eq_refl).
Qed.

Lemma lowerChar_upperChar c : isUpper c = false -> lowerChar (upperChar c) = c.
Proof. destruct c as [[] [] [] [] [] [] [] []]; intros H; try reflexivity; discriminate H. Qed.

Lemma toLowerCase_noUpper_id s : noUpper s = true -> toLowerCase s = s.
Proof.
  unfold toLowerCase.
  induction s as [|c rest IH]; cbn [mapString noUpper]; [reflexivity|].
  intros H. apply andb_true_iff in H as [Hc Hr]. rewrite (IH Hr).
  unfold lowerChar. apply negb_true_iff in Hc. now rewrite Hc.
Qed.

Lemma capitalise_lowered g :
  noUpper g = true -> toLowerCase (toUpperCase (charAt0 g) +:+ slice1 g) = g.
Proof.
  destruct g as [|c rest]; [reflexivity|]. cbn [noUpper].
  intros H. apply andb_true_iff in H as [Hc Hr]. apply negb_true_iff in Hc.
  change (String (lowerChar (upperChar c)) (toLowerCase rest) = String c rest).
  now rewrite (lowerChar_upperChar c Hc), (toLowerCase_noUpper_id rest Hr).
Qed.

Lemma transformRelative_gender relative p :
  Hooks.transformRelative rt dateNow relative = Normal p ->
  exists g, Hooks.gender_lower relative = Normal g /\ Hooks.p_gender p = g ||| VStr "unknown".
Proof.
  unfold Hooks.transformRelative. intros H.
  destruct (Hooks.userid_toString rt relative); [|discriminate H]. simpl in H.
  destruct (Hooks.gender_lower relative) as [g|]; [|discriminate H]. simpl in H.
  destruct (Hooks.getRelationshipName rt _); [|discriminate H]. simpl in H.
  destruct (Hooks.getDistrictName rt _); [|discriminate H]. simpl in H.
  destruct (Hooks.getVdcName rt _); [|discriminate H]. simpl in H.
  injection H as <-. now exists g.
Qed.

(** X20.  On the cache path the gender survives the round trip: a record
    that comes back with the gender the create sent, for a form whose
    gender is non-empty ASCII text with no upper-case letter, is read as a
    patient with the gender of the form. *)
Theorem gender_round_trip d relative p :
  asciiOnly (Hooks.gender d) = true ->
  noUpper (Hooks.gender d) = true ->
  Hooks.gender d <> "" ->
  get relative "gender" = get (Hooks.apiData d) "gender" ->
  Hooks.transformRelative rt dateNow relative = Normal p ->
  Hooks.p_gender p = VStr (Hooks.gender d).
Proof.
  intros _ U N G H.
  destruct (transformRelative_gender relative p H) as (g & Hg & ->).
  unfold Hooks.gender_lower in Hg. rewrite G in Hg.
  change (get (Hooks.apiData d) "gender")
    with (VStr (toUpperCase (charAt0 (Hooks.gender d)) +:+ slice1 (Hooks.gender d))) in Hg.
  cbn iota in Hg. rewrite (capitalise_lowered _ U) in Hg. injection Hg as <-.
  unfold or_. simpl. destruct (String.eqb_spec (Hooks.gender d) ""); [contradiction|reflexivity].
Qed.

End ListQuery.

Lemma usePatients_without_list_witness :
  Hooks.usePatients_queryFn (Sample.resolves (Sample.envelope "error" "Session expired" VNull)) 0
  = Normal [].
Proof.
  apply (usePatients_without_list _ 0 (Sample.envelope "error" "Session expired" VNull)).
  - reflexivity.
  - intros items H. discriminate H.
Defined.

Lemma gender_round_trip_witness :
  let rt := Sample.resolves VNull in
  let d := Hooks.mkData "Sita" "Rai" "other" "34" "Years" "" "" "9800000000"
                        "sibling" "kathmandu" "municipality_a" "4" "Tole 1" in
  let relative := VObj [("userid", VNum 12); ("gender", VStr "Other")] in
  exists p, Hooks.transformRelative rt 1718440200000 relative = Normal p
            /\ Hooks.p_gender p = VStr "other".
Proof.
  intros rt d relative. eexists. split; [reflexivity|].
  apply (gender_round_trip rt 1718440200000 d relative); reflexivity || discriminate.
Defined.

(** The list query fails as a whole on a list with a [null] element, which
    the fetch of the store path skips. *)
Example usePatients_null_element :
  exists e,
    Hooks.usePatients_queryFn
      (Sample.resolves (Sample.envelope "success" "Relative List" (VObj [("list", VArr [VNull])])))
      0 = Throw e.
Proof. eexists. reflexivity. Qed.

(** ** The date picker *)

Section DatePicker.

Import FormDatePicker.

Lemma pretty_N_char_digit m :
  (m < 10)%N -> decimalDigit (pretty_N_char m) = Some (Z.of_N m).
Proof.
  intros H.
  assert (m = 0 \/ m = 1 \/ m = 2 \/ m = 3 \/ m = 4 \/ m = 5 \/ m = 6 \/ m = 7
          \/ m = 8 \/ m = 9)%N as C by lia.
  repeat (destruct C as [->|C]; [reflexivity|]). now subst m.
Qed.

Lemma decimalDigit_isDigit c v : decimalDigit c = Some v -> isDigit c = true.
Proof. unfold decimalDigit. now destruct (isDigit c). Qed.

Lemma pretty_N_go_allDigits x : forall s,
  allDigits s = true -> allDigits (pretty_N_go x s) = true.
Proof.
  induction (N.lt_wf_0 x) as [x _ IH]. intros s Hs.
  destruct (N.eq_dec x 0%N) as [->|N0]; [now rewrite pretty_N_go_0|].
  rewrite pretty_N_go_step by lia. apply IH; [apply N.div_lt; lia|].
  cbn [allDigits]. rewrite Hs, andb_true_r.
  exact (decimalDigit_isDigit _ _ (pretty_N_char_digit _ (N.mod_lt x 10%N ltac:(lia)))).
Qed.

Lemma pretty_N_go_nonempty x : forall s, s <> "" -> pretty_N_go x s <> "".
Proof.
  induction (N.lt_wf_0 x) as [x _ IH]. intros s Hs.
  destruct (N.eq_dec x 0%N) as [->|N0]; [now rewrite pretty_N_go_0|].
  rewrite pretty_N_go_step by lia. apply IH; [apply N.div_lt; lia|discriminate].
Qed.

Lemma pretty_N_go_value x :
  exists k, forall acc s,
    digitsValue decimalDigit 10 acc (pretty_N_go x s)
    = digitsValue decimalDigit 10 (acc * k + Z.of_N x) s.
Proof.
  induction (N.lt_wf_0 x) as [x _ IH].
  destruct (N.eq_dec x 0%N) as [->|N0].
  - exists 1. intros acc s. rewrite pretty_N_go_0. f_equal. lia.
  - destruct (IH (x `div` 10)%N) as [k Hk]; [apply N.div_lt; lia|].
    exists (10 * k). intros acc s.
    rewrite pretty_N_go_step by lia. rewrite Hk. cbn [digitsValue].
    rewrite (pretty_N_char_digit _ (N.mod_lt x 10%N ltac:(lia))). f_equal.
    rewrite (N.div_mod x 10%N) at 3 by lia. lia.
Qed.

(** The text of a non-negative integer: digits only, at least one, and
    read back as the integer. *)
Lemma pretty_nonneg z :
  0 <= z ->
  allDigits (pretty z) = true /\ pretty z <> ""
  /\ digitsValue decimalDigit 10 0 (pretty z) = z.
Proof.
  intros H. destruct z as [|p|p]; [repeat split; discriminate| |lia].
  change (pretty (Z.pos p)) with (pretty_N_go (N.pos p) "").
  split; [now apply pretty_N_go_allDigits|].
  split.
  - rewrite pretty_N_go_step by lia. apply pretty_N_go_nonempty. discriminate.
  - destruct (pretty_N_go_value (N.pos p)) as [k Hk]. rewrite Hk. cbn [digitsValue]. lia.
Qed.

Lemma allDigits_no_slash s : allDigits s = true -> occurs "/" s = false.
Proof.
  induction s as [|c rest IH]; cbn [allDigits occurs]; [reflexivity|].
  intros H. apply andb_true_iff in H as [Hc Hr]. rewrite (IH Hr), orb_false_r.
  destruct c as [[] [] [] [] [] [] [] []]; try reflexivity; discriminate Hc.
Qed.

Lemma split_no_slash s : occurs "/" s = false -> split s = [s].
Proof.
  induction s as [|c rest IH]; cbn [split occurs]; [reflexivity|].
  intros H. apply orb_false_iff in H as [Hc Hr].
  destruct (Ascii.eqb_spec c "/") as [->|_];
    [rewrite Ascii.eqb_refl in Hc; discriminate Hc|].
  now rewrite (IH Hr).
Qed.

Lemma split_piece a b :
  occurs "/" a = false -> split (a +:+ String "/" b) = a :: split b.
Proof.
  induction a as [|c rest IH]; cbn [occurs]; [reflexivity|].
  intros H. apply orb_false_iff in H as [Hc Hr].
  change (String c rest +:+ String "/" b) with (String c (rest +:+ String "/" b)).
  cbn [split].
  destruct (Ascii.eqb_spec c "/") as [->|_];
    [rewrite Ascii.eqb_refl in Hc; discriminate Hc|].
  now rewrite (IH Hr).
Qed.

(** On a text of digits [parseInt] reads the whole text in base 10. *)
Lemma parseInt_digits s :
  allDigits s = true -> s <> "" -> parseInt s = Num (digitsValue decimalDigit 10 0 s).
Proof.
  destruct s as [|c rest]; [congruence|]. cbn [allDigits]. intros H _.
  apply andb_true_iff in H as [Hc Hr].
  assert (X : startsWith "0x" (String c rest) = false /\ startsWith "0X" (String c rest) = false).
  { destruct rest as [|c2 rest2].
    - destruct c as [[] [] [] [] [] [] [] []]; try discriminate Hc; split; reflexivity.
    - cbn [allDigits] in Hr. apply andb_true_iff in Hr as [Hc2 _].
      destruct c as [[] [] [] [] [] [] [] []]; try discriminate Hc; try (split; reflexivity).
      destruct c2 as [[] [] [] [] [] [] [] []]; try discriminate Hc2; split; reflexivity. }
  destruct X as [X1 X2].
  assert (T : trimStart (String c rest) = String c rest
              /\ startsWith "-" (String c rest) = false
              /\ startsWith "+" (String c rest) = false).
  { destruct c as [[] [] [] [] [] [] [] []]; try discriminate Hc; repeat split; reflexivity. }
  destruct T as (T1 & T2 & T3).
  unfold parseInt. rewrite T1, T2, T3. cbn [orb]. rewrite X1, X2. cbn [orb].
  cbv zeta. unfold decimalDigit at 1. now rewrite Hc.
Qed.

Lemma padStart2_digits s :
  allDigits s = true -> s <> "" ->
  allDigits (padStart2 s) = true /\ padStart2 s <> ""
  /\ digitsValue decimalDigit 10 0 (padStart2 s) = digitsValue decimalDigit 10 0 s.
Proof.
  intros H N. destruct s as [|c [|c2 rest]]; [congruence| |].
  - cbn [padStart2]. split; [exact H|]. split; [discriminate|reflexivity].
  - cbn [padStart2]. split; [exact H|]. split; [discriminate|reflexivity].
Qed.

(** X21.  With the default format the picker reads back what it wrote:
    opened on the text it produced for a year, a month and a day, it
    selects that year, month and day again. *)
Theorem date_picker_round_trip rt year month day :
  0 <= year < 2 ^ 53 -> 0 <= month < 2 ^ 53 -> 0 <= day < 2 ^ 53 ->
  initialSelection rt (Some (formatDateValue "YYYY/MM/DD" (Num year) (Num month) (Num day)))
  = (Num year, Num month, Num day).
Proof.
  intros [Hy _] [Hm _] [Hd _].
  destruct (pretty_nonneg year Hy) as (Ay & Ny & Vy).
  destruct (pretty_nonneg month Hm) as (Am & Nm & Vm).
  destruct (pretty_nonneg day Hd) as (Ad & Nd & Vd).
  destruct (padStart2_digits _ Am Nm) as (Pm & PNm & PVm).
  destruct (padStart2_digits _ Ad Nd) as (Pd & PNd & PVd).
  unfold formatDateValue. cbn [String.eqb Ascii.eqb Bool.eqb]. cbv zeta. cbn [String_].
  unfold initialSelection.
  replace (negb (String.eqb (pretty year +:+ "/" +:+ padStart2 (pretty month) +:+ "/"
                             +:+ padStart2 (pretty day)) ""))
    with true by (destruct (pretty year); [congruence|reflexivity]).
  unfold parsePiece.
  change (pretty year +:+ "/" +:+ padStart2 (pretty month) +:+ "/" +:+ padStart2 (pretty day))
    with (pretty year +:+ String "/" (padStart2 (pretty month)
                                      +:+ String "/" (padStart2 (pretty day)))).
  rewrite (split_piece _ _ (allDigits_no_slash _ Ay)),
          (split_piece _ _ (allDigits_no_slash _ Pm)),
          (split_no_slash _ (allDigits_no_slash _ Pd)).
  cbn [lookup list_lookup from_option].
  rewrite (parseInt_digits _ Ay Ny), (parseInt_digits _ Pm PNm), (parseInt_digits _ Pd PNd).
  now rewrite Vy, PVm, Vm, PVd, Vd.
Qed.

End DatePicker.

Lemma date_picker_round_trip_witness :
  FormDatePicker.formatDateValue "YYYY/MM/DD" (Num 1990) (Num 1) (Num 9) = "1990/01/09"
  /\ FormDatePicker.initialSelection (Sample.resolves VNull) (Some "1990/01/09")
     = (Num 1990, Num 1, Num 9).
Proof.
  split; [reflexivity|].
  apply (date_picker_round_trip (Sample.resolves VNull) 1990 1 9); lia.
Defined.

(** With another format the picker does not read back what it wrote: the
    initial selection always takes the first piece for the year. *)
Example date_picker_other_format :
  FormDatePicker.initialSelection (Sample.resolves VNull)
    (Some (FormDatePicker.formatDateValue "DD/MM/YYYY" (Num 1990) (Num 1) (Num 9)))
  = (Num 9, Num 1, Num 1990).
Proof. reflexivity. Qed.
